(** * schedule_utils: date predicates of the Ansible filter plugin

    A shallow embedding of [plugins/filters/schedule_utils.py]
    ([FilterModule]) together with the properties its specification
    states about it.

    Conventions of the embedding.
    - A Python [str] is a [string]; its characters are code points below
      256.  On those, the regular-expression class [\d] is exactly
      [0-9].
    - [datetime.date] and [datetime.datetime] are records of integer
      fields; a value stored in the [dates] dictionary is one or the
      other ([temporal]).
    - Python dictionaries ([dates], [ops], the table of [filters]) are
      finite maps keyed by strings.
    - The system clock is a sequence of readings: [datetime.today()]
      returns the reading at the current tick and advances the tick.
      Exceptions and the tick are threaded through a small monad [py].
*)

From Stdlib Require Import ZArith Lia Ascii String List Bool.
From stdpp Require Import base option gmap strings fin_maps.

Local Open Scope string_scope.
Local Open Scope Z_scope.

(** ** Temporal values *)

Record date := mkdate { year : Z; month : Z; day : Z }.

Record datetime := mkdatetime {
  dt_date : date;
  hour : Z;
  minute : Z;
  second : Z;
  microsecond : Z
}.

(** What [dates["now_date"]] and [dates["check_date"]] hold. *)
Inductive temporal :=
| VDate (d : date)
| VDateTime (t : datetime).

(** [datetime.date()] *)
Definition date_of (t : datetime) : date := dt_date t.

(** [datetime.replace(microsecond=0)] *)
Definition replace_microsecond0 (t : datetime) : datetime :=
  {| dt_date := dt_date t; hour := hour t; minute := minute t;
     second := second t; microsecond := 0 |}.

Definition is_date (v : temporal) : bool :=
  match v with VDate _ => true | VDateTime _ => false end.

Definition is_datetime (v : temporal) : bool :=
  match v with VDate _ => false | VDateTime _ => true end.

(** The sub-second part of a value; a calendar date has none. *)
Definition subsecond (v : temporal) : Z :=
  match v with VDate _ => 0 | VDateTime t => microsecond t end.

(** ** Exceptions and the clock *)

Inductive exn :=
| KeyError (key : string)   (* dictionary subscript on a missing key *)
| ValueError                (* strptime: data does not fit the format *)
| TypeError.                (* ordering a date against a datetime *)

Inductive outcome (A : Type) :=
| Ok (a : A)
| Raise (e : exn).
Arguments Ok {A} a.
Arguments Raise {A} e.

Definition is_ok {A} (o : outcome A) : bool :=
  match o with Ok _ => true | Raise _ => false end.

(** A clock is the sequence of instants successive readings return. *)
Definition clock := nat -> datetime.

(** A computation reads the clock [c] from tick [n] on and ends with a
    value or an exception at some later tick. *)
Definition py (A : Type) : Type := clock -> nat -> outcome A * nat.

Global Instance py_ret : MRet py := fun A (a : A) _ n => (Ok a, n).

Global Instance py_bind : MBind py := fun A B (k : A -> py B) (m : py A) c n =>
  match m c n with
  | (Ok a, n') => k a c n'
  | (Raise e, n') => (Raise e, n')
  end.

(** An exception-or-value computed without the clock. *)
Definition lift {A} (o : outcome A) : py A := fun _ n => (o, n).

(** [datetime.today()] *)
Definition today : py datetime := fun c n => (Ok (c n), S n).

(** What the caller observes of a run started at tick [n]. *)
Definition run {A} (m : py A) (c : clock) (n : nat) : outcome A :=
  fst (m c n).

(** The clock stands still at instant [t]. *)
Definition fixed_clock (c : clock) (t : datetime) : Prop :=
  forall n, c n = t.

(** ** Comparison of temporal values *)

(** Tuples are compared item by item, the first difference decides. *)
Fixpoint cmp_tuple (xs ys : list Z) : comparison :=
  match xs, ys with
  | [], [] => Eq
  | [], _ :: _ => Lt
  | _ :: _, [] => Gt
  | x :: xs', y :: ys' =>
      match x ?= y with
      | Eq => cmp_tuple xs' ys'
      | r => r
      end
  end.

Definition date_tuple (d : date) : list Z := [year d; month d; day d].

Definition datetime_tuple (t : datetime) : list Z :=
  date_tuple (dt_date t) ++ [hour t; minute t; second t; microsecond t].

Definition date_cmp (a b : date) : comparison :=
  cmp_tuple (date_tuple a) (date_tuple b).

Definition datetime_cmp (a b : datetime) : comparison :=
  cmp_tuple (datetime_tuple a) (datetime_tuple b).

(** Two values of the same class compare by their tuples; a date and a
    datetime have no order. *)
Definition temporal_cmp (a b : temporal) : option comparison :=
  match a, b with
  | VDate x, VDate y => Some (date_cmp x y)
  | VDateTime x, VDateTime y => Some (datetime_cmp x y)
  | _, _ => None
  end.

Definition is_Eq (r : comparison) : bool :=
  match r with Eq => true | _ => false end.
Definition is_Lt (r : comparison) : bool :=
  match r with Lt => true | _ => false end.
Definition is_Gt (r : comparison) : bool :=
  match r with Gt => true | _ => false end.

(** The rich comparisons of [operator]: [==] and [!=] answer for any
    two values, the four orderings raise [TypeError] on a date against
    a datetime. *)
Definition op_eq (a b : temporal) : outcome bool :=
  match temporal_cmp a b with
  | Some r => Ok (is_Eq r)
  | None => Ok false
  end.

Definition op_ne (a b : temporal) : outcome bool :=
  match temporal_cmp a b with
  | Some r => Ok (negb (is_Eq r))
  | None => Ok true
  end.

Definition op_lt (a b : temporal) : outcome bool :=
  match temporal_cmp a b with
  | Some r => Ok (is_Lt r)
  | None => Raise TypeError
  end.

Definition op_le (a b : temporal) : outcome bool :=
  match temporal_cmp a b with
  | Some r => Ok (negb (is_Gt r))
  | None => Raise TypeError
  end.

Definition op_gt (a b : temporal) : outcome bool :=
  match temporal_cmp a b with
  | Some r => Ok (is_Gt r)
  | None => Raise TypeError
  end.

Definition op_ge (a b : temporal) : outcome bool :=
  match temporal_cmp a b with
  | Some r => Ok (negb (is_Lt r))
  | None => Raise TypeError
  end.

(** ** Regular expressions: the three patterns of [get_dates]

    The patterns are anchored sequences of one-character items, so a
    pattern is the list of its items between [^] and [$]. *)

Inductive item :=
| Digit                (* \d *)
| Lit (c : ascii).     (* a literal character *)

Definition is_digit (c : ascii) : bool :=
  ((48 <=? N_of_ascii c) && (N_of_ascii c <=? 57))%N.

Definition item_matches (i : item) (c : ascii) : bool :=
  match i with
  | Digit => is_digit c
  | Lit l => Ascii.eqb l c
  end.

Definition newline : ascii := ascii_of_N 10.

(** [$] holds at the end of the string and just before a newline that
    ends the string. *)
Definition at_dollar (s : string) : bool :=
  match s with
  | EmptyString => true
  | String c EmptyString => Ascii.eqb c newline
  | _ => false
  end.

(** [re.match("^" items "$", s)] as a truth value. *)
Fixpoint re_match (p : list item) (s : string) : bool :=
  match p with
  | [] => at_dollar s
  | i :: p' =>
      match s with
      | EmptyString => false
      | String c s' => item_matches i c && re_match p' s'
      end
  end.

(** [\d{n}] *)
Definition digits (n : nat) : list item := replicate n Digit.

(** [^\d{4}-\d{2}\-\d{2}$] *)
Definition pattern_date : list item :=
  digits 4 ++ [Lit "-"] ++ digits 2 ++ [Lit "-"] ++ digits 2.

Definition pattern_time : list item :=
  digits 2 ++ [Lit ":"] ++ digits 2 ++ [Lit ":"] ++ digits 2.

(** [^\d{4}-\d{2}\-\d{2}T\d{2}:\d{2}:\d{2}$] *)
Definition pattern_T : list item :=
  pattern_date ++ [Lit "T"] ++ pattern_time.

(** [^\d{4}-\d{2}\-\d{2} \d{2}:\d{2}:\d{2}$] *)
Definition pattern_space : list item :=
  pattern_date ++ [Lit " "] ++ pattern_time.

(** ** [datetime.strptime]

    [get_dates] hands a string to [strptime] only after the pattern of
    the same shape matched it, so every numeric field arrives at its
    full width and every separator is the one of the format.  The model
    reads the directives [%Y %m %d %H %M %S] at that width; on such
    strings it accepts and rejects as the library does. *)

Definition digit_val (c : ascii) : Z := Z.of_N (N_of_ascii c) - 48.

Fixpoint read_digits (w : nat) (s : string) (acc : Z) : option (Z * string) :=
  match w with
  | O => Some (acc, s)
  | S w' =>
      match s with
      | EmptyString => None
      | String c s' =>
          if is_digit c then read_digits w' s' (10 * acc + digit_val c)
          else None
      end
  end.

(** The fields found so far; the library starts from 1900-01-01
    00:00:00. *)
Record found := mkfound {
  f_year : Z; f_month : Z; f_day : Z;
  f_hour : Z; f_minute : Z; f_second : Z
}.

Definition found0 : found := mkfound 1900 1 1 0 0 0.

Inductive field := FYear | FMonth | FDay | FHour | FMinute | FSecond.

Definition set_field (f : field) (v : Z) (r : found) : found :=
  match f with
  | FYear => mkfound v (f_month r) (f_day r) (f_hour r) (f_minute r) (f_second r)
  | FMonth => mkfound (f_year r) v (f_day r) (f_hour r) (f_minute r) (f_second r)
  | FDay => mkfound (f_year r) (f_month r) v (f_hour r) (f_minute r) (f_second r)
  | FHour => mkfound (f_year r) (f_month r) (f_day r) v (f_minute r) (f_second r)
  | FMinute => mkfound (f_year r) (f_month r) (f_day r) (f_hour r) v (f_second r)
  | FSecond => mkfound (f_year r) (f_month r) (f_day r) (f_hour r) (f_minute r) v
  end.

(** A directive letter: the field it fills, its width and the range of
    values its expression admits. *)
Definition directive (d : ascii) : option (field * nat * Z * Z) :=
  if Ascii.eqb d "Y" then Some (FYear, 4%nat, 0, 9999)
  else if Ascii.eqb d "m" then Some (FMonth, 2%nat, 1, 12)
  else if Ascii.eqb d "d" then Some (FDay, 2%nat, 1, 31)
  else if Ascii.eqb d "H" then Some (FHour, 2%nat, 0, 23)
  else if Ascii.eqb d "M" then Some (FMinute, 2%nat, 0, 59)
  else if Ascii.eqb d "S" then Some (FSecond, 2%nat, 0, 61)
  else None.

(** Match the data string against the format, left to right; nothing of
    the data may remain at the end of the format. *)
Fixpoint scan (fmt s : string) (r : found) : option found :=
  match fmt with
  | EmptyString =>
      match s with EmptyString => Some r | _ => None end
  | String c fmt' =>
      if Ascii.eqb c "%" then
        match fmt' with
        | EmptyString => None
        | String d fmt'' =>
            match directive d with
            | None => None
            | Some (f, w, lo, hi) =>
                match read_digits w s 0 with
                | None => None
                | Some (v, s') =>
                    if (lo <=? v) && (v <=? hi)
                    then scan fmt'' s' (set_field f v r)
                    else None
                end
            end
        end
      else
        match s with
        | EmptyString => None
        | String c' s' => if Ascii.eqb c c' then scan fmt' s' r else None
        end
  end.

Definition is_leap (y : Z) : bool :=
  (y mod 4 =? 0) && (negb (y mod 100 =? 0) || (y mod 400 =? 0)).

Definition days_in_month (y m : Z) : Z :=
  if (m =? 2) && is_leap y then 29
  else nth (Z.to_nat m) [-1; 31; 28; 31; 30; 31; 30; 31; 31; 30; 31; 30; 31] 0.

(** What the constructor [datetime(...)] accepts. *)
Definition datetime_ok (t : datetime) : bool :=
  let d := dt_date t in
  (1 <=? year d) && (year d <=? 9999) &&
  (1 <=? month d) && (month d <=? 12) &&
  (1 <=? day d) && (day d <=? days_in_month (year d) (month d)) &&
  (0 <=? hour t) && (hour t <=? 23) &&
  (0 <=? minute t) && (minute t <=? 59) &&
  (0 <=? second t) && (second t <=? 59) &&
  (0 <=? microsecond t) && (microsecond t <=? 999999).

Definition datetime_of_found (r : found) : datetime :=
  {| dt_date := mkdate (f_year r) (f_month r) (f_day r);
     hour := f_hour r; minute := f_minute r; second := f_second r;
     microsecond := 0 |}.

Definition strptime (s fmt : string) : outcome datetime :=
  match scan fmt s found0 with
  | None => Raise ValueError
  | Some r =>
      let t := datetime_of_found r in
      if datetime_ok t then Ok t else Raise ValueError
  end.

(** ** FilterModule *)

(** [d[k]]: the value at [k], or [KeyError] when the key is missing. *)
Definition subscript {V} (d : gmap string V) (k : string) : py V :=
  match d !! k with
  | Some v => mret v
  | None => lift (Raise (KeyError k))
  end.

(** [FilterModule.get_dates]: the three patterns are tried one after
    the other (three [if]s, no [elif]); each one that matches reads the
    clock, then parses the string. *)
Definition get_dates (datestring : string) : py (gmap string temporal) :=
  let dates : gmap string temporal := ∅ in
  dates ← (if re_match pattern_date datestring then
             now ← today;
             let dates := <["now_date" := VDate (date_of now)]> dates in
             check ← lift (strptime datestring "%Y-%m-%d");
             mret (<["check_date" := VDate (date_of check)]> dates)
           else mret dates);
  dates ← (if re_match pattern_T datestring then
             now ← today;
             let dates := <["now_date" := VDateTime (replace_microsecond0 now)]> dates in
             check ← lift (strptime datestring "%Y-%m-%dT%H:%M:%S");
             mret (<["check_date" := VDateTime check]> dates)
           else mret dates);
  dates ← (if re_match pattern_space datestring then
             now ← today;
             let dates := <["now_date" := VDateTime (replace_microsecond0 now)]> dates in
             check ← lift (strptime datestring "%Y-%m-%d %H:%M:%S");
             mret (<["check_date" := VDateTime check]> dates)
           else mret dates);
  mret dates.

(** Python truth value of the [date_operator] argument: [None] and the
    empty string are false. *)
Definition truthy (o : option string) : bool :=
  match o with
  | None => false
  | Some EmptyString => false
  | Some (String _ _) => true
  end.

(** The operator table of [is_due]. *)
Definition ops : gmap string (temporal → temporal → outcome bool) :=
  {[ "==" := op_eq; ">" := op_gt; ">=" := op_ge;
     "<=" := op_le; "<" := op_lt; "!=" := op_ne ]}.

(** [FilterModule.is_due]; past the guard the operator is a non-empty
    string. *)
Definition is_due (datestring : string) (date_operator : option string)
  : py bool :=
  let date_operator :=
    if negb (truthy date_operator) then "==" else default "" date_operator in
  check_date ← (get_dates datestring ≫= λ d, subscript d "check_date");
  now_date ← (get_dates datestring ≫= λ d, subscript d "now_date");
  f ← subscript ops date_operator;
  lift (f now_date check_date).

Definition is_past (datestring : string) : py bool :=
  check_date ← (get_dates datestring ≫= λ d, subscript d "check_date");
  now_date ← (get_dates datestring ≫= λ d, subscript d "now_date");
  b ← lift (op_lt check_date now_date);
  if b : bool then mret true else mret false.

Definition is_today_or_past (datestring : string) : py bool :=
  check_date ← (get_dates datestring ≫= λ d, subscript d "check_date");
  now_date ← (get_dates datestring ≫= λ d, subscript d "now_date");
  b ← lift (op_le check_date now_date);
  if b : bool then mret true else mret false.

Definition is_future (datestring : string) : py bool :=
  check_date ← (get_dates datestring ≫= λ d, subscript d "check_date");
  now_date ← (get_dates datestring ≫= λ d, subscript d "now_date");
  b ← lift (op_gt check_date now_date);
  if b : bool then mret true else mret false.

Definition is_today_or_future (datestring : string) : py bool :=
  check_date ← (get_dates datestring ≫= λ d, subscript d "check_date");
  now_date ← (get_dates datestring ≫= λ d, subscript d "now_date");
  b ← lift (op_ge check_date now_date);
  if b : bool then mret true else mret false.

Definition is_today (datestring : string) : py bool :=
  check_date ← (get_dates datestring ≫= λ d, subscript d "check_date");
  now_date ← (get_dates datestring ≫= λ d, subscript d "now_date");
  b ← lift (op_eq check_date now_date);
  if b : bool then mret true else mret false.

(** A filter is called with the date string alone, or with the date
    string and an optional operator. *)
Inductive callable :=
| Filter1 (f : string → py bool)
| Filter2 (f : string → option string → py bool).

(** [FilterModule.filters] *)
Definition filters : gmap string callable :=
  {[ "is_due" := Filter2 is_due;
     "is_future" := Filter1 is_future;
     "is_past" := Filter1 is_past;
     "is_today_or_future" := Filter1 is_today_or_future;
     "is_today_or_past" := Filter1 is_today_or_past;
     "is_today" := Filter1 is_today ]}.

(** The dictionary [get_dates] returns when a pattern matched. *)
Definition pair_of (now check : temporal) : gmap string temporal :=
  <["check_date" := check]> (<["now_date" := now]> ∅).

(** ** Notions the properties are stated with *)

(** A date-only string that names a calendar date. *)
Definition date_only_valid (s : string) : bool :=
  re_match pattern_date s && is_ok (strptime s "%Y-%m-%d").

(** A timestamp string, with [T] or with a space, that names a date
    and time. *)
Definition timestamp_valid (s : string) : bool :=
  (re_match pattern_T s && is_ok (strptime s "%Y-%m-%dT%H:%M:%S"))
  || (re_match pattern_space s && is_ok (strptime s "%Y-%m-%d %H:%M:%S")).

Definition valid_datestring (s : string) : bool :=
  date_only_valid s || timestamp_valid s.

(** The string has none of the three shapes. *)
Definition matches_none (s : string) : bool :=
  negb (re_match pattern_date s) && negb (re_match pattern_T s)
  && negb (re_match pattern_space s).

(** The instant [t] at the precision of [check]: the calendar date for
    a date, the time cut to whole seconds for a timestamp. *)
Definition now_as (check : temporal) (t : datetime) : temporal :=
  match check with
  | VDate _ => VDate (date_of t)
  | VDateTime _ => VDateTime (replace_microsecond0 t)
  end.

(** [s] resolves to [check]: at any tick [get_dates] reads the clock
    once and returns the pair of that reading, at the precision of
    [check], and [check]. *)
Definition resolves_to (s : string) (check : temporal) : Prop :=
  ∀ c n, get_dates s c n = (Ok (pair_of (now_as check (c n)) check), S n).

(** The common body of the five named predicates. *)
Definition named (op : temporal → temporal → outcome bool) (s : string)
  : py bool :=
  check_date ← (get_dates s ≫= λ d, subscript d "check_date");
  now_date ← (get_dates s ≫= λ d, subscript d "now_date");
  b ← lift (op check_date now_date);
  if b : bool then mret true else mret false.

Definition same_variant (a b : temporal) : bool :=
  (is_date a && is_date b) || (is_datetime a && is_datetime b).

Definition outcome_map {A B} (f : A → B) (o : outcome A) : outcome B :=
  match o with Ok a => Ok (f a) | Raise e => Raise e end.

(** Calendar order on dates. *)
Definition date_before (a b : date) : Prop :=
  year a < year b
  ∨ (year a = year b
     ∧ (month a < month b ∨ (month a = month b ∧ day a < day b))).

(** The operator symbols [is_due] knows. *)
Definition recognized : list string := ["=="; ">"; ">="; "<="; "<"; "!="].

(** The names under which the filters are registered. *)
Definition filter_names : list string :=
  ["is_due"; "is_future"; "is_past"; "is_today_or_future";
   "is_today_or_past"; "is_today"].

(** *** Rendering a timestamp

    [datetime.isoformat(sep)] of a datetime without microseconds:
    [YYYY-MM-DD<sep>HH:MM:SS], every field zero-padded; [str(t)] is
    [t.isoformat(" ")]. *)

Definition digit_char (d : Z) : ascii := ascii_of_N (48 + Z.to_N d).

Definition pad2 (v : Z) (rest : string) : string :=
  String (digit_char (v / 10)) (String (digit_char (v mod 10)) rest).

Definition pad4 (v : Z) (rest : string) : string :=
  pad2 (v / 100) (pad2 (v mod 100) rest).

Definition isoformat (sep : ascii) (t : datetime) : string :=
  let d := dt_date t in
  pad4 (year d) (String "-" (pad2 (month d) (String "-" (pad2 (day d)
    (String sep (pad2 (hour t) (String ":" (pad2 (minute t)
      (String ":" (pad2 (second t) EmptyString)))))))))).

(** *** Clocks for concrete runs *)

Definition noon_2030_06_15 : datetime :=
  mkdatetime (mkdate 2030 6 15) 12 0 0 250000.

Definition clock_2030_06_15 : clock := fun _ => noon_2030_06_15.

(** A clock that passes midnight after its second reading. *)
Definition clock_past_midnight : clock := fun n =>
  if (n <? 2)%nat then mkdatetime (mkdate 2030 6 15) 23 59 59 999999
  else mkdatetime (mkdate 2030 6 16) 0 0 0 100.

(** ** Notions for the further properties *)

(** The five predicates that take the date string alone. *)
Definition named_predicates : list (string → py bool) :=
  [is_past; is_today_or_past; is_future; is_today_or_future; is_today].

(** The tick at which a run started at tick [n] ends: [n] plus the
    number of clock readings made. *)
Definition ticks {A} (m : py A) (c : clock) (n : nat) : nat := snd (m c n).

(** The instant [t] is not after [t']. *)
Definition not_after (t t' : datetime) : Prop := datetime_cmp t t' ≠ Gt.

(** [str(d)] of a date: [YYYY-MM-DD], every field zero-padded. *)
Definition isoformat_date (d : date) : string :=
  pad4 (year d) (String "-" (pad2 (month d) (String "-"
    (pad2 (day d) EmptyString)))).

(** What the constructor [date(...)] accepts. *)
Definition date_ok (d : date) : bool :=
  (1 <=? year d) && (year d <=? 9999) &&
  (1 <=? month d) && (month d <=? 12) &&
  (1 <=? day d) && (day d <=? days_in_month (year d) (month d)).


(** ** The unit tests ([TestStringUtlisFunctions])

    [timedelta(days=1)] is added to or subtracted from a date by
    moving to the neighbouring calendar day; outside 0001-01-01 to
    9999-12-31 the library raises [OverflowError], here [None]. *)

Definition prev_day (d : date) : option date :=
  if 1 <? day d then Some (mkdate (year d) (month d) (day d - 1))
  else if 1 <? month d then
    Some (mkdate (year d) (month d - 1) (days_in_month (year d) (month d - 1)))
  else if 1 <? year d then Some (mkdate (year d - 1) 12 31)
  else None.

Definition next_day (d : date) : option date :=
  if day d <? days_in_month (year d) (month d) then
    Some (mkdate (year d) (month d) (day d + 1))
  else if month d <? 12 then Some (mkdate (year d) (month d + 1) 1)
  else if year d <? 9999 then Some (mkdate (year d + 1) 1 1)
  else None.

(** [t - timedelta(days=1)] and [t + timedelta(days=1)]: the time of
    day stays. *)
Definition minus_day (t : datetime) : option datetime :=
  d ← prev_day (dt_date t);
  Some (mkdatetime d (hour t) (minute t) (second t) (microsecond t)).

Definition plus_day (t : datetime) : option datetime :=
  d ← next_day (dt_date t);
  Some (mkdatetime d (hour t) (minute t) (second t) (microsecond t)).

(** The attributes [setUp] stores on the test case. *)
Record fixture := mkfixture {
  date_today : string;
  date_today_wt : string;
  date_yesterday : string;
  date_yesterday_wt : string;
  date_tomorrow : string;
  date_tomorrow_wt : string
}.

(** [setUp]: seven readings of the clock ([datetime.today().now()]
    reads it twice and keeps the second); [str] of a date is
    [isoformat_date], [str] of a datetime without microseconds is
    [isoformat " "].  [None] stands for the [OverflowError] of the day
    arithmetic. *)
Definition setUp (c : clock) (n : nat) : option fixture * nat :=
  let today_ := isoformat_date (date_of (c n)) in
  let today_wt := isoformat " " (replace_microsecond0 (c (2 + n)%nat)) in
  match minus_day (c (3 + n)%nat) with
  | None => (None, (4 + n)%nat)
  | Some y =>
      match minus_day (c (4 + n)%nat) with
      | None => (None, (5 + n)%nat)
      | Some ywt =>
          match plus_day (c (5 + n)%nat) with
          | None => (None, (6 + n)%nat)
          | Some z =>
              match plus_day (c (6 + n)%nat) with
              | None => (None, (7 + n)%nat)
              | Some zwt =>
                  (Some {| date_today := today_;
                           date_today_wt := today_wt;
                           date_yesterday := isoformat_date (date_of y);
                           date_yesterday_wt :=
                             isoformat " " (replace_microsecond0 ywt);
                           date_tomorrow := isoformat_date (date_of z);
                           date_tomorrow_wt :=
                             isoformat " " (replace_microsecond0 zwt) |},
                   (7 + n)%nat)
              end
          end
      end
  end.

(** A test method ends with [Ok true] when every assertion held, with
    [Ok false] at the first assertion that fails ([AssertionError]),
    and with the exception of a predicate that raised. *)
Definition assertTrue (m rest : py bool) : py bool :=
  b ← m; if b : bool then rest else mret false.

Definition assertFalse (m rest : py bool) : py bool :=
  b ← m; if b : bool then mret false else rest.

Definition assertEqual (a b : temporal) (rest : py bool) : py bool :=
  e ← lift (op_eq a b); if e : bool then rest else mret false.

Definition passed : py bool := mret true.

Definition test_get_dates_without_time (self : fixture) : py bool :=
  result ← get_dates "1970-01-01";
  a ← subscript result "check_date";
  b ← lift (strptime "1970-01-01" "%Y-%m-%d");
  assertEqual a (VDate (date_of b))
    (a ← subscript result "now_date";
     b ← lift (strptime (date_today self) "%Y-%m-%d");
     assertEqual a (VDate (date_of b)) passed).

Definition test_get_dates_with_time (self : fixture) : py bool :=
  now ← today;
  let time_now := isoformat " " (replace_microsecond0 now) in
  result ← get_dates "1970-01-01T01:01:01";
  a ← subscript result "check_date";
  b ← lift (strptime "1970-01-01 01:01:01" "%Y-%m-%d %H:%M:%S");
  assertEqual a (VDateTime b)
    (a ← subscript result "now_date";
     b ← lift (strptime time_now "%Y-%m-%d %H:%M:%S");
     assertEqual a (VDateTime b)
       (result ← get_dates "1970-01-01T01:01:01";
        a ← subscript result "check_date";
        b ← lift (strptime "1970-01-01 01:01:01" "%Y-%m-%d %H:%M:%S");
        assertEqual a (VDateTime b)
          (a ← subscript result "now_date";
           b ← lift (strptime time_now "%Y-%m-%d %H:%M:%S");
           assertEqual a (VDateTime b) passed))).

Definition test_is_past (self : fixture) : py bool :=
  assertTrue (is_past (date_yesterday self))
    (assertFalse (is_past (date_today self))
       (assertFalse (is_past (date_tomorrow self)) passed)).

Definition test_is_past_wtime (self : fixture) : py bool :=
  assertFalse (is_past (date_tomorrow_wt self))
    (assertFalse (is_past (date_today_wt self))
       (assertTrue (is_past (date_yesterday_wt self)) passed)).

Definition test_is_today_or_past (self : fixture) : py bool :=
  assertTrue (is_today_or_past (date_today self))
    (assertTrue (is_today_or_past (date_yesterday self))
       (assertFalse (is_today_or_past (date_tomorrow self)) passed)).

Definition test_is_today_or_past_wt (self : fixture) : py bool :=
  assertTrue (is_today_or_past (date_today_wt self))
    (assertTrue (is_today_or_past (date_yesterday_wt self))
       (assertFalse (is_today_or_past (date_tomorrow_wt self)) passed)).

Definition test_is_future (self : fixture) : py bool :=
  assertFalse (is_future (date_today self))
    (assertFalse (is_future (date_yesterday self))
       (assertTrue (is_future (date_tomorrow self)) passed)).

Definition test_is_today_or_future (self : fixture) : py bool :=
  assertTrue (is_today_or_future (date_today self))
    (assertFalse (is_today_or_future (date_yesterday self))
       (assertTrue (is_today_or_future (date_tomorrow self)) passed)).

Definition test_is_future_wt (self : fixture) : py bool :=
  assertFalse (is_future (date_today_wt self))
    (assertFalse (is_future (date_yesterday_wt self))
       (assertTrue (is_future (date_tomorrow_wt self)) passed)).

Definition test_is_today (self : fixture) : py bool :=
  assertTrue (is_today (date_today self))
    (assertFalse (is_today (date_yesterday self))
       (assertFalse (is_today (date_tomorrow self)) passed)).

Definition test_is_today_wt (self : fixture) : py bool :=
  assertTrue (is_today (date_today_wt self))
    (assertFalse (is_today (date_yesterday_wt self))
       (assertFalse (is_today (date_tomorrow_wt self)) passed)).

Definition test_is_due_eq (self : fixture) : py bool :=
  assertTrue (is_due (date_today self) (Some "=="))
    (assertFalse (is_due (date_tomorrow self) (Some "=="))
       (assertFalse (is_due (date_yesterday self) (Some "==")) passed)).

Definition test_is_due_gt (self : fixture) : py bool :=
  assertFalse (is_due (date_today self) (Some ">"))
    (assertFalse (is_due (date_tomorrow self) (Some ">"))
       (assertTrue (is_due (date_yesterday self) (Some ">")) passed)).

Definition test_is_due_ge (self : fixture) : py bool :=
  assertTrue (is_due (date_today self) (Some ">="))
    (assertFalse (is_due (date_tomorrow self) (Some ">="))
       (assertTrue (is_due (date_yesterday self) (Some ">=")) passed)).

Definition test_is_due_le (self : fixture) : py bool :=
  assertTrue (is_due (date_today self) (Some "<="))
    (assertTrue (is_due (date_tomorrow self) (Some "<="))
       (assertFalse (is_due (date_yesterday self) (Some "<=")) passed)).

Definition test_is_due_lt (self : fixture) : py bool :=
  assertFalse (is_due (date_today self) (Some "<"))
    (assertTrue (is_due (date_tomorrow self) (Some "<"))
       (assertFalse (is_due (date_yesterday self) (Some "<")) passed)).

Definition test_is_due_ne (self : fixture) : py bool :=
  assertFalse (is_due (date_today self) (Some "!="))
    (assertTrue (is_due (date_tomorrow self) (Some "!="))
       (assertTrue (is_due (date_yesterday self) (Some "!=")) passed)).

(** The tests on date-only strings, on timestamp strings, and on
    [is_due]. *)
Definition date_tests : list (fixture → py bool) :=
  [test_is_past; test_is_today_or_past; test_is_future;
   test_is_today_or_future; test_is_today].

Definition timestamp_tests : list (fixture → py bool) :=
  [test_is_past_wtime; test_is_today_or_past_wt; test_is_future_wt;
   test_is_today_wt].

Definition is_due_tests : list (fixture → py bool) :=
  [test_is_due_eq; test_is_due_gt; test_is_due_ge; test_is_due_le;
   test_is_due_lt; test_is_due_ne].

(** A clock standing on the first of March of a leap year. *)
Definition a_clock_for_tests : clock := fun _ =>
  mkdatetime (mkdate 2024 3 1) 0 0 0 1.

(** The string resolves to a value that compares as [r] with the
    instant [t] taken at the same precision. *)
Definition stands (s : string) (t : datetime) (r : comparison) : Prop :=
  ∃ check, resolves_to s check
           ∧ temporal_cmp check (now_as check t) = Some r.

(** * Properties *)

(** ** Runs on concrete inputs *)

Example strptime_date : strptime "1970-01-01" "%Y-%m-%d"
  = Ok (mkdatetime (mkdate 1970 1 1) 0 0 0 0).
Proof. reflexivity. Qed.

Example strptime_feb30 : strptime "2030-02-30" "%Y-%m-%d" = Raise ValueError.
Proof. reflexivity. Qed.

Example strptime_T : strptime "2024-02-29T23:59:59" "%Y-%m-%dT%H:%M:%S"
  = Ok (mkdatetime (mkdate 2024 2 29) 23 59 59 0).
Proof. reflexivity. Qed.

Example strptime_leap_second :
  strptime "2024-02-29 23:59:60" "%Y-%m-%d %H:%M:%S" = Raise ValueError.
Proof. reflexivity. Qed.

Example run_is_past : run (is_past "2030-06-14") clock_2030_06_15 0 = Ok true.
Proof. vm_compute. reflexivity. Qed.

Example run_is_future : run (is_future "2030-06-16") clock_2030_06_15 0 = Ok true.
Proof. vm_compute. reflexivity. Qed.

Example run_is_today : run (is_today "2030-06-15") clock_2030_06_15 0 = Ok true.
Proof. vm_compute. reflexivity. Qed.

Example run_is_due_ge :
  run (is_due "2030-06-15" (Some ">=")) clock_2030_06_15 0 = Ok true
  ∧ run (is_due "2030-06-15" (Some ">=")) (fun _ => mkdatetime (mkdate 2030 6 14) 12 0 0 0) 0
    = Ok false.
Proof. vm_compute. split; reflexivity. Qed.

Example run_is_due_unknown :
  run (is_due "2030-06-15" (Some "~=")) clock_2030_06_15 0 = Raise (KeyError "~=").
Proof. vm_compute. reflexivity. Qed.

(** Two calls made one after the other may disagree when the clock
    moves between them. *)
Example run_moving_clock :
  run (is_today "2030-06-15") clock_past_midnight 0 = Ok true
  ∧ run (is_due "2030-06-15" (Some "==")) clock_past_midnight 2 = Ok false.
Proof. vm_compute. split; reflexivity. Qed.

Example run_is_past_malformed :
  run (is_past "15/06/2030") clock_2030_06_15 0 = Raise (KeyError "check_date").
Proof. vm_compute. reflexivity. Qed.

(** ** The monad *)

Section Monad.
Context {A B : Type}.

Lemma bind_ok (m : py A) (k : A → py B) c n a n' :
  m c n = (Ok a, n') → (m ≫= k) c n = k a c n'.
Proof. intros H. unfold mbind, py_bind. now rewrite H. Qed.

Lemma bind_raise (m : py A) (k : A → py B) c n e n' :
  m c n = (Raise e, n') → (m ≫= k) c n = (Raise e, n').
Proof. intros H. unfold mbind, py_bind. now rewrite H. Qed.

Lemma bind_lift (o : outcome A) (k : A → py B) c n :
  (lift o ≫= k) c n = match o with Ok a => k a c n | Raise e => (Raise e, n) end.
Proof. now destruct o. Qed.

Lemma bind_today (k : datetime → py B) c n :
  (today ≫= k) c n = k (c n) c (S n).
Proof. reflexivity. Qed.

Lemma bind_ret (a : A) (k : A → py B) c n : (mret a ≫= k) c n = k a c n.
Proof. reflexivity. Qed.
End Monad.

(** ** The patterns exclude one another *)

Lemma re_match_length p s :
  re_match p s = true →
  String.length s = List.length p ∨ String.length s = S (List.length p).
Proof.
  revert s. induction p as [|i p IH]; intros s H; simpl in H.
  - destruct s as [|c [|c' s]]; simpl in *; auto; discriminate.
  - destruct s as [|c s]; [discriminate|].
    apply andb_true_iff in H as [_ H]. simpl.
    destruct (IH _ H) as [-> | ->]; auto.
Qed.

(** Where a pattern has a literal, a matching string has that
    character. *)
Lemma re_match_literal p s k l :
  re_match p s = true → p !! k = Some (Lit l) → String.get k s = Some l.
Proof.
  revert s k. induction p as [|i p IH]; intros s k H Hk; [discriminate|].
  simpl in H. destruct s as [|c s]; [discriminate|].
  apply andb_true_iff in H as [Hc H].
  destruct k as [|k]; simpl in *.
  - injection Hk as ->. simpl in Hc. apply Ascii.eqb_eq in Hc. now subst.
  - eauto.
Qed.

Lemma date_excludes_T s :
  re_match pattern_date s = true → re_match pattern_T s = false.
Proof.
  intros H. apply re_match_length in H.
  destruct (re_match pattern_T s) eqn:E; [|reflexivity].
  apply re_match_length in E. simpl in *. lia.
Qed.

Lemma date_excludes_space s :
  re_match pattern_date s = true → re_match pattern_space s = false.
Proof.
  intros H. apply re_match_length in H.
  destruct (re_match pattern_space s) eqn:E; [|reflexivity].
  apply re_match_length in E. simpl in *. lia.
Qed.

Lemma T_excludes_space s :
  re_match pattern_T s = true → re_match pattern_space s = false.
Proof.
  intros H.
  destruct (re_match pattern_space s) eqn:E; [|reflexivity].
  apply re_match_literal with (k := 10%nat) (l := "T"%char) in H; [|reflexivity].
  apply re_match_literal with (k := 10%nat) (l := " "%char) in E; [|reflexivity].
  congruence.
Qed.

Lemma T_excludes_date s :
  re_match pattern_T s = true → re_match pattern_date s = false.
Proof.
  intros H. destruct (re_match pattern_date s) eqn:E; [|reflexivity].
  apply date_excludes_T in E. congruence.
Qed.

Lemma space_excludes_date s :
  re_match pattern_space s = true → re_match pattern_date s = false.
Proof.
  intros H. destruct (re_match pattern_date s) eqn:E; [|reflexivity].
  apply date_excludes_space in E. congruence.
Qed.

Lemma space_excludes_T s :
  re_match pattern_space s = true → re_match pattern_T s = false.
Proof.
  intros H. destruct (re_match pattern_T s) eqn:E; [|reflexivity].
  apply T_excludes_space in E. congruence.
Qed.

(** ** What [get_dates] returns, shape by shape *)

Lemma pair_of_check now check : pair_of now check !! "check_date" = Some check.
Proof. unfold pair_of. now rewrite lookup_insert_eq. Qed.

Lemma pair_of_now now check : pair_of now check !! "now_date" = Some now.
Proof.
  unfold pair_of. rewrite lookup_insert_ne by discriminate.
  now rewrite lookup_insert_eq.
Qed.

Lemma get_dates_date s c n :
  re_match pattern_date s = true →
  get_dates s c n =
    match strptime s "%Y-%m-%d" with
    | Ok t => (Ok (pair_of (VDate (date_of (c n))) (VDate (date_of t))), S n)
    | Raise e => (Raise e, S n)
    end.
Proof.
  intros H. unfold get_dates.
  rewrite H, (date_excludes_T _ H), (date_excludes_space _ H).
  unfold mbind at 1. unfold py_bind.
  rewrite bind_today, bind_lift.
  now destruct (strptime s "%Y-%m-%d").
Qed.

Lemma get_dates_T s c n :
  re_match pattern_T s = true →
  get_dates s c n =
    match strptime s "%Y-%m-%dT%H:%M:%S" with
    | Ok t => (Ok (pair_of (VDateTime (replace_microsecond0 (c n))) (VDateTime t)), S n)
    | Raise e => (Raise e, S n)
    end.
Proof.
  intros H. unfold get_dates.
  rewrite H, (T_excludes_date _ H), (T_excludes_space _ H).
  rewrite bind_ret. unfold mbind at 1. unfold py_bind.
  rewrite bind_today, bind_lift.
  now destruct (strptime s "%Y-%m-%dT%H:%M:%S").
Qed.

Lemma get_dates_space s c n :
  re_match pattern_space s = true →
  get_dates s c n =
    match strptime s "%Y-%m-%d %H:%M:%S" with
    | Ok t => (Ok (pair_of (VDateTime (replace_microsecond0 (c n))) (VDateTime t)), S n)
    | Raise e => (Raise e, S n)
    end.
Proof.
  intros H. unfold get_dates.
  rewrite H, (space_excludes_date _ H), (space_excludes_T _ H).
  rewrite !bind_ret. unfold mbind at 1. unfold py_bind.
  rewrite bind_today, bind_lift.
  now destruct (strptime s "%Y-%m-%d %H:%M:%S").
Qed.

Lemma get_dates_none s c n :
  re_match pattern_date s = false →
  re_match pattern_T s = false →
  re_match pattern_space s = false →
  get_dates s c n = (Ok ∅, n).
Proof. intros H1 H2 H3. unfold get_dates. now rewrite H1, H2, H3. Qed.

(** ** Valid strings resolve to a pair *)

Lemma date_only_resolves s :
  date_only_valid s = true →
  ∃ t, strptime s "%Y-%m-%d" = Ok t ∧ resolves_to s (VDate (date_of t)).
Proof.
  unfold date_only_valid. intros [Hm Hp]%andb_true_iff.
  destruct (strptime s "%Y-%m-%d") as [t|] eqn:E; [|discriminate].
  exists t. split; [reflexivity|]. intros c n.
  now rewrite get_dates_date, E.
Qed.

Lemma timestamp_resolves s :
  timestamp_valid s = true →
  ∃ t, (strptime s "%Y-%m-%dT%H:%M:%S" = Ok t ∨ strptime s "%Y-%m-%d %H:%M:%S" = Ok t)
       ∧ resolves_to s (VDateTime t).
Proof.
  unfold timestamp_valid.
  intros [[Hm Hp]%andb_true_iff | [Hm Hp]%andb_true_iff]%orb_true_iff.
  - destruct (strptime s "%Y-%m-%dT%H:%M:%S") as [t|] eqn:E; [|discriminate].
    exists t. split; [now left|]. intros c n. now rewrite get_dates_T, E.
  - destruct (strptime s "%Y-%m-%d %H:%M:%S") as [t|] eqn:E; [|discriminate].
    exists t. split; [now right|]. intros c n. now rewrite get_dates_space, E.
Qed.

Lemma valid_resolves s :
  valid_datestring s = true → ∃ check, resolves_to s check.
Proof.
  unfold valid_datestring. intros [H|H]%orb_true_iff.
  - destruct (date_only_resolves s H) as (t & _ & Ht). eauto.
  - destruct (timestamp_resolves s H) as (t & _ & Ht). eauto.
Qed.

(** The valid strings are those on which [get_dates] returns a pair. *)
Lemma valid_iff_pair s c n :
  valid_datestring s = true
  ↔ ∃ now check, run (get_dates s) c n = Ok (pair_of now check).
Proof.
  split.
  - intros [check Hr]%valid_resolves. exists (now_as check (c n)), check.
    unfold run. now rewrite Hr.
  - intros (now & check & H). unfold run in H.
    unfold valid_datestring, date_only_valid, timestamp_valid.
    destruct (re_match pattern_date s) eqn:E1;
      [|destruct (re_match pattern_T s) eqn:E2;
        [|destruct (re_match pattern_space s) eqn:E3]].
    + rewrite (get_dates_date s c n E1) in H.
      now destruct (strptime s "%Y-%m-%d").
    + rewrite (get_dates_T s c n E2) in H.
      now destruct (strptime s "%Y-%m-%dT%H:%M:%S").
    + rewrite (get_dates_space s c n E3) in H.
      now destruct (strptime s "%Y-%m-%d %H:%M:%S").
    + rewrite (get_dates_none s c n E1 E2 E3) in H. simpl in H.
      assert (E : pair_of now check = ∅) by congruence.
      unfold pair_of in E. now apply insert_non_empty in E.
Qed.

(** The two subscripted calls every predicate starts with. *)
Lemma fetch_check s check c n :
  resolves_to s check →
  (get_dates s ≫= λ d, subscript d "check_date") c n = (Ok check, S n).
Proof.
  intros H. rewrite (bind_ok _ _ _ _ _ _ (H c n)).
  unfold subscript. now rewrite pair_of_check.
Qed.

Lemma fetch_now s check c n :
  resolves_to s check →
  (get_dates s ≫= λ d, subscript d "now_date") c n
  = (Ok (now_as check (c n)), S n).
Proof.
  intros H. rewrite (bind_ok _ _ _ _ _ _ (H c n)).
  unfold subscript. now rewrite pair_of_now.
Qed.

Lemma run_named op s check c n :
  resolves_to s check →
  run (named op s) c n = op check (now_as check (c (S n))).
Proof.
  intros H. unfold run, named.
  rewrite (bind_ok _ _ _ _ _ _ (fetch_check s check c n H)).
  rewrite (bind_ok _ _ _ _ _ _ (fetch_now s check c (S n) H)).
  rewrite bind_lift.
  destruct (op check (now_as check (c (S n)))) as [[|]|]; reflexivity.
Qed.

Lemma run_is_due_resolved s o check c n :
  resolves_to s check →
  run (is_due s o) c n =
    match ops !! (if negb (truthy o) then "==" else default "" o) with
    | Some f => f (now_as check (c (S n))) check
    | None => Raise (KeyError (if negb (truthy o) then "==" else default "" o))
    end.
Proof.
  intros H. unfold run, is_due.
  rewrite (bind_ok _ _ _ _ _ _ (fetch_check s check c n H)).
  rewrite (bind_ok _ _ _ _ _ _ (fetch_now s check c (S n) H)).
  unfold subscript.
  destruct (ops !! _); reflexivity.
Qed.

(** ** The order of temporal values *)

Lemma temporal_cmp_now_as check t :
  ∃ r, temporal_cmp check (now_as check t) = Some r
       ∧ temporal_cmp (now_as check t) check = Some (CompOpp r).
Proof.
  assert (Hopp : ∀ xs ys, cmp_tuple ys xs = CompOpp (cmp_tuple xs ys)).
  { induction xs as [|x xs IH]; intros [|y ys]; simpl; try reflexivity.
    rewrite (Z.compare_antisym x y).
    destruct (x ?= y); simpl; auto. }
  destruct check as [d|u]; simpl; eexists; (split; [reflexivity|]);
    f_equal; apply Hopp.
Qed.

Lemma ops_lookup :
  ops !! "==" = Some op_eq ∧ ops !! ">" = Some op_gt ∧ ops !! ">=" = Some op_ge
  ∧ ops !! "<=" = Some op_le ∧ ops !! "<" = Some op_lt ∧ ops !! "!=" = Some op_ne
  ∧ ops !! "" = None.
Proof. repeat split; reflexivity. Qed.

(** With the clock standing still, the operators of [is_due], applied
    to (now, check), answer as the named comparisons applied to
    (check, now). *)
Lemma flipped_operators check t :
  op_eq (now_as check t) check = op_eq check (now_as check t)
  ∧ op_gt (now_as check t) check = op_lt check (now_as check t)
  ∧ op_lt (now_as check t) check = op_gt check (now_as check t)
  ∧ op_ge (now_as check t) check = op_le check (now_as check t)
  ∧ op_le (now_as check t) check = op_ge check (now_as check t)
  ∧ op_ne (now_as check t) check = outcome_map negb (op_eq check (now_as check t))
  ∧ ∃ b, op_eq check (now_as check t) = Ok b.
Proof.
  destruct (temporal_cmp_now_as check t) as (r & H1 & H2).
  unfold op_eq, op_gt, op_lt, op_ge, op_le, op_ne. rewrite H1, H2.
  destruct r; simpl; repeat split; eauto.
Qed.

(** C1. At a fixed clock instant and for every valid date string,
    [is_due] applies the operator it looked up to (now, check); hence
    [is_due] with [==], [>], [<], [>=], [<=] returns what [is_today],
    [is_past], [is_future], [is_today_or_past], [is_today_or_future]
    return, and with [!=] the negation of [is_today]; all of them
    return booleans. *)
Theorem is_due_agrees_with_named (c : clock) (t : datetime) (d : string) (n m : nat) :
  fixed_clock c t →
  valid_datestring d = true →
  (∃ check, resolves_to d check
     ∧ ∀ op f, ops !! op = Some f →
         run (is_due d (Some op)) c n = f (now_as check t) check)
  ∧ run (is_due d (Some "==")) c n = run (is_today d) c m
  ∧ run (is_due d (Some ">")) c n = run (is_past d) c m
  ∧ run (is_due d (Some "<")) c n = run (is_future d) c m
  ∧ run (is_due d (Some ">=")) c n = run (is_today_or_past d) c m
  ∧ run (is_due d (Some "<=")) c n = run (is_today_or_future d) c m
  ∧ run (is_due d (Some "!=")) c n = outcome_map negb (run (is_today d) c m)
  ∧ ∃ b, run (is_today d) c m = Ok b.
Proof.
  intros Hc Hv. destruct (valid_resolves d Hv) as [check Hr].
  destruct (flipped_operators check t) as (E1 & E2 & E3 & E4 & E5 & E6 & b & E7).
  destruct ops_lookup as (L1 & L2 & L3 & L4 & L5 & L6 & L7).
  split.
  { exists check. split; [exact Hr|]. intros op f Hf.
    rewrite (run_is_due_resolved d (Some op) check c n Hr), Hc.
    destruct op as [|a op]; [congruence|]. simpl. now rewrite Hf. }
  change (is_today d) with (named op_eq d).
  change (is_past d) with (named op_lt d).
  change (is_future d) with (named op_gt d).
  change (is_today_or_past d) with (named op_le d).
  change (is_today_or_future d) with (named op_ge d).
  rewrite !(run_named _ d check c m Hr).
  rewrite !(run_is_due_resolved d _ check c n Hr). simpl.
  rewrite L1, L2, L3, L4, L5, L6, !Hc.
  repeat split; eauto.
Qed.

Lemma is_due_agrees_with_named_witness :
  fixed_clock clock_2030_06_15 noon_2030_06_15
  ∧ valid_datestring "2030-06-14" = true
  ∧ run (is_due "2030-06-14" (Some "==")) clock_2030_06_15 0
    = run (is_today "2030-06-14") clock_2030_06_15 7
  ∧ run (is_due "2030-06-14" (Some ">")) clock_2030_06_15 0
    = run (is_past "2030-06-14") clock_2030_06_15 7.
Proof.
  assert (Hc : fixed_clock clock_2030_06_15 noon_2030_06_15)
    by (intros k; reflexivity).
  assert (Hv : valid_datestring "2030-06-14" = true) by reflexivity.
  split; [exact Hc|]. split; [exact Hv|].
  destruct (is_due_agrees_with_named clock_2030_06_15 noon_2030_06_15
              "2030-06-14" 0 7 Hc Hv) as (_ & Heq & Hgt & _).
  split; [exact Heq | exact Hgt].
Defined.

(** The comparisons of a value with the instant at its own precision
    are those of one three-way comparison. *)
Lemma named_comparisons check t :
  ∃ r, op_lt check (now_as check t) = Ok (is_Lt r)
       ∧ op_eq check (now_as check t) = Ok (is_Eq r)
       ∧ op_gt check (now_as check t) = Ok (is_Gt r)
       ∧ op_le check (now_as check t) = Ok (negb (is_Gt r))
       ∧ op_ge check (now_as check t) = Ok (negb (is_Lt r))
       ∧ temporal_cmp check (now_as check t) = Some r.
Proof.
  destruct (temporal_cmp_now_as check t) as (r & H & _). exists r.
  unfold op_lt, op_eq, op_gt, op_le, op_ge. now rewrite H.
Qed.

(** C6. At a fixed clock instant and for every valid date string,
    [is_today_or_past] is the disjunction of [is_past] and [is_today],
    and [is_today_or_future] the disjunction of [is_future] and
    [is_today]. *)
Theorem or_predicates_are_disjunctions
  (c : clock) (t : datetime) (D : string) (n1 n2 n3 n4 n5 : nat) :
  fixed_clock c t →
  valid_datestring D = true →
  ∃ past today_ future : bool,
    run (is_past D) c n1 = Ok past
    ∧ run (is_today D) c n2 = Ok today_
    ∧ run (is_future D) c n3 = Ok future
    ∧ run (is_today_or_past D) c n4 = Ok (past || today_)
    ∧ run (is_today_or_future D) c n5 = Ok (future || today_).
Proof.
  intros Hc Hv. destruct (valid_resolves D Hv) as [check Hr].
  destruct (named_comparisons check t) as (r & Hlt & Heq & Hgt & Hle & Hge & _).
  exists (is_Lt r), (is_Eq r), (is_Gt r).
  change (is_today D) with (named op_eq D).
  change (is_past D) with (named op_lt D).
  change (is_future D) with (named op_gt D).
  change (is_today_or_past D) with (named op_le D).
  change (is_today_or_future D) with (named op_ge D).
  rewrite !(run_named _ D check c _ Hr), !Hc, Hlt, Heq, Hgt, Hle, Hge.
  destruct r; repeat split; reflexivity.
Qed.

Lemma or_predicates_are_disjunctions_witness :
  fixed_clock clock_2030_06_15 noon_2030_06_15
  ∧ valid_datestring "2030-06-15 12:00:00" = true
  ∧ ∃ past today_ future : bool,
      run (is_past "2030-06-15 12:00:00") clock_2030_06_15 0 = Ok past
      ∧ run (is_today "2030-06-15 12:00:00") clock_2030_06_15 2 = Ok today_
      ∧ run (is_future "2030-06-15 12:00:00") clock_2030_06_15 4 = Ok future
      ∧ run (is_today_or_past "2030-06-15 12:00:00") clock_2030_06_15 6
        = Ok (past || today_)
      ∧ run (is_today_or_future "2030-06-15 12:00:00") clock_2030_06_15 8
        = Ok (future || today_).
Proof.
  assert (Hc : fixed_clock clock_2030_06_15 noon_2030_06_15)
    by (intros k; reflexivity).
  assert (Hv : valid_datestring "2030-06-15 12:00:00" = true) by reflexivity.
  split; [exact Hc|]. split; [exact Hv|].
  exact (or_predicates_are_disjunctions clock_2030_06_15 noon_2030_06_15
           "2030-06-15 12:00:00" 0 2 4 6 8 Hc Hv).
Defined.

(** C10. An empty, absent or null operator is replaced by [==] before
    the table is consulted: for every valid date string, at a fixed
    clock instant, [is_due] then returns what [is_today] returns, and
    that is a boolean, not an error. *)
Theorem is_due_falsy_operator_defaults
  (c : clock) (t : datetime) (d : string) (o : option string) (n m : nat) :
  fixed_clock c t →
  valid_datestring d = true →
  truthy o = false →
  ("" ∉ recognized)
  ∧ run (is_due d o) c n = run (is_today d) c m
  ∧ ∃ b, run (is_due d o) c n = Ok b.
Proof.
  intros Hc Hv Ho. destruct (valid_resolves d Hv) as [check Hr].
  destruct (flipped_operators check t) as (E1 & _ & _ & _ & _ & _ & b & E7).
  destruct ops_lookup as (L1 & _).
  split.
  { unfold recognized. rewrite !not_elem_of_cons. repeat split; try discriminate.
    apply not_elem_of_nil. }
  change (is_today d) with (named op_eq d).
  rewrite (run_named _ d check c m Hr), (run_is_due_resolved d o check c n Hr).
  rewrite Ho. simpl. rewrite L1, !Hc, E1. eauto.
Qed.

Lemma is_due_falsy_operator_defaults_witness :
  fixed_clock clock_2030_06_15 noon_2030_06_15
  ∧ valid_datestring "2030-06-15" = true
  ∧ truthy (Some "") = false
  ∧ run (is_due "2030-06-15" (Some "")) clock_2030_06_15 0
    = run (is_today "2030-06-15") clock_2030_06_15 2.
Proof.
  assert (Hc : fixed_clock clock_2030_06_15 noon_2030_06_15)
    by (intros k; reflexivity).
  assert (Hv : valid_datestring "2030-06-15" = true) by reflexivity.
  assert (Ho : truthy (Some "") = false) by reflexivity.
  split; [exact Hc|]. split; [exact Hv|]. split; [exact Ho|].
  exact (proj1 (proj2 (is_due_falsy_operator_defaults clock_2030_06_15
           noon_2030_06_15 "2030-06-15" (Some "") 0 2 Hc Hv Ho))).
Defined.

(** ** Operators that are not in the table *)

Lemma ops_unrecognized op : op ∉ recognized → ops !! op = None.
Proof.
  unfold recognized. rewrite !not_elem_of_cons.
  intros (H1 & H2 & H3 & H4 & H5 & H6 & _).
  unfold ops. rewrite !lookup_insert_ne by congruence.
  apply lookup_singleton_ne. congruence.
Qed.

Lemma ops_recognized op : op ∈ recognized → is_Some (ops !! op) ∧ op ≠ "".
Proof.
  unfold recognized. rewrite !elem_of_cons, elem_of_nil.
  intros [->|[->|[->|[->|[->|[->|[]]]]]]]; split; (eexists; reflexivity) || discriminate.
Qed.

Lemma operators_answer check t f op :
  ops !! op = Some f → ∃ b, f (now_as check t) check = Ok b.
Proof.
  intros Hf.
  destruct (temporal_cmp_now_as check t) as (r & _ & H).
  destruct (decide (op ∈ recognized)) as [Hin|Hout].
  - destruct ops_lookup as (L1 & L2 & L3 & L4 & L5 & L6 & _).
    revert Hin Hf. unfold recognized. rewrite !elem_of_cons, elem_of_nil.
    intros [->|[->|[->|[->|[->|[->|[]]]]]]] Hf;
      rewrite ?L1, ?L2, ?L3, ?L4, ?L5, ?L6 in Hf; injection Hf as <-;
      unfold op_eq, op_gt, op_ge, op_le, op_lt, op_ne; rewrite H; eauto.
  - rewrite (ops_unrecognized op Hout) in Hf. discriminate.
Qed.

(** C3, as amended.  For every valid date string: a non-empty operator
    string that is not one of the six symbols makes [is_due] fail, with
    the [KeyError] of the table lookup naming that operator; each of
    the six symbols makes it return a boolean.  (The empty string is
    not rejected: it stands for [==].) *)
Theorem is_due_operator_table (c : clock) (d op : string) (n : nat) :
  valid_datestring d = true →
  (op ≠ "" → op ∉ recognized →
     run (is_due d (Some op)) c n = Raise (KeyError op))
  ∧ (op ∈ recognized → ∃ b, run (is_due d (Some op)) c n = Ok b).
Proof.
  intros Hv. destruct (valid_resolves d Hv) as [check Hr].
  rewrite (run_is_due_resolved d (Some op) check c n Hr).
  split.
  - intros Hne Hout. destruct op as [|a op]; [congruence|]. simpl.
    now rewrite (ops_unrecognized _ Hout).
  - intros Hin. destruct (ops_recognized op Hin) as [[f Hf] Hne].
    destruct op as [|a op]; [congruence|]. simpl. rewrite Hf.
    eapply operators_answer, Hf.
Qed.

Lemma is_due_operator_table_witness :
  valid_datestring "2030-06-15" = true
  ∧ "~=" ≠ "" ∧ ("~=" ∉ recognized)
  ∧ run (is_due "2030-06-15" (Some "~=")) clock_2030_06_15 0
    = Raise (KeyError "~=").
Proof.
  assert (Hv : valid_datestring "2030-06-15" = true) by reflexivity.
  assert (Hne : "~=" ≠ "") by discriminate.
  assert (Hout : "~=" ∉ recognized).
  { unfold recognized. rewrite !not_elem_of_cons.
    repeat split; try discriminate. apply not_elem_of_nil. }
  split; [exact Hv|]. split; [exact Hne|]. split; [exact Hout|].
  exact (proj1 (is_due_operator_table clock_2030_06_15 "2030-06-15" "~=" 0 Hv)
           Hne Hout).
Defined.

(** C3, counterexample.  The empty string is none of the six symbols,
    yet [is_due] does not fail on it: it answers as for [==]. *)
Lemma is_due_empty_operator_not_rejected :
  valid_datestring "2030-06-15" = true
  ∧ ("" ∉ recognized)
  ∧ run (is_due "2030-06-15" (Some "")) clock_2030_06_15 0 = Ok true.
Proof.
  split; [reflexivity|]. split; [|reflexivity].
  unfold recognized. rewrite !not_elem_of_cons.
  repeat split; try discriminate. apply not_elem_of_nil.
Qed.

(** ** Strings of no recognized shape *)

Lemma fetch_unmatched s k c n :
  matches_none s = true →
  (get_dates s ≫= λ d, subscript d k) c n = (Raise (KeyError k), n).
Proof.
  unfold matches_none.
  intros [[H1 H2]%andb_true_iff H3]%andb_true_iff.
  apply negb_true_iff in H1, H2, H3.
  rewrite (bind_ok _ _ _ _ _ _ (get_dates_none s c n H1 H2 H3)).
  unfold subscript. now rewrite lookup_empty.
Qed.

Lemma run_named_unmatched op s c n :
  matches_none s = true →
  run (named op s) c n = Raise (KeyError "check_date").
Proof.
  intros H. unfold run, named.
  now rewrite (bind_raise _ _ _ _ _ _ (fetch_unmatched s "check_date" c n H)).
Qed.

(** C2, as amended.  On every string that matches none of the three
    patterns each of the six predicates fails, whatever the clock and
    the operator: the subscript ["check_date"] on the empty dictionary
    raises [KeyError]; none returns a boolean. *)
Theorem unmatched_input_raises_KeyError
  (c : clock) (s : string) (o : option string) (n : nat) :
  matches_none s = true →
  run (is_past s) c n = Raise (KeyError "check_date")
  ∧ run (is_today_or_past s) c n = Raise (KeyError "check_date")
  ∧ run (is_future s) c n = Raise (KeyError "check_date")
  ∧ run (is_today_or_future s) c n = Raise (KeyError "check_date")
  ∧ run (is_today s) c n = Raise (KeyError "check_date")
  ∧ run (is_due s o) c n = Raise (KeyError "check_date").
Proof.
  intros H.
  change (is_today s) with (named op_eq s).
  change (is_past s) with (named op_lt s).
  change (is_future s) with (named op_gt s).
  change (is_today_or_past s) with (named op_le s).
  change (is_today_or_future s) with (named op_ge s).
  rewrite !(run_named_unmatched _ s c n H).
  repeat split. unfold run, is_due.
  now rewrite (bind_raise _ _ _ _ _ _ (fetch_unmatched s "check_date" c n H)).
Qed.

Lemma unmatched_input_raises_KeyError_witness :
  matches_none "15/06/2030" = true
  ∧ run (is_due "15/06/2030" (Some "~=")) clock_2030_06_15 0
    = Raise (KeyError "check_date").
Proof.
  assert (H : matches_none "15/06/2030" = true) by reflexivity.
  split; [exact H|].
  exact (proj2 (proj2 (proj2 (proj2 (proj2
    (unmatched_input_raises_KeyError clock_2030_06_15 "15/06/2030"
       (Some "~=") 0 H)))))).
Defined.

(** C2, counterexample.  ["15/06/2030"] matches no pattern, and the
    failure of the predicates on it is the missing-key error of the
    dictionary subscript, the error the claim rules out. *)
Lemma malformed_input_missing_key :
  matches_none "15/06/2030" = true
  ∧ run (get_dates "15/06/2030") clock_2030_06_15 0 = Ok ∅
  ∧ run (is_past "15/06/2030") clock_2030_06_15 0 = Raise (KeyError "check_date")
  ∧ run (is_today "15/06/2030") clock_2030_06_15 0 = Raise (KeyError "check_date")
  ∧ run (is_due "15/06/2030" None) clock_2030_06_15 0
    = Raise (KeyError "check_date").
Proof. repeat split; reflexivity. Qed.

(** ** Date-only strings *)

Lemma date_cmp_spec a b :
  match date_cmp a b with
  | Lt => date_before a b
  | Eq => a = b
  | Gt => date_before b a
  end.
Proof.
  destruct a as [ya ma da], b as [yb mb db].
  unfold date_cmp, date_before, date_tuple. simpl.
  destruct (Z.compare_spec ya yb) as [->| |]; [|lia|lia].
  destruct (Z.compare_spec ma mb) as [->| |]; [|lia|lia].
  destruct (Z.compare_spec da db) as [->| |]; [reflexivity|lia|lia].
Qed.

Lemma date_before_irrefl a : ¬ date_before a a.
Proof. unfold date_before. lia. Qed.

Lemma date_before_asym a b : date_before a b → ¬ date_before b a.
Proof. unfold date_before. lia. Qed.

Lemma date_cmp_Lt a b : is_Lt (date_cmp a b) = true ↔ date_before a b.
Proof.
  pose proof (date_cmp_spec a b) as H.
  destruct (date_cmp a b); simpl; split; intros H'; try discriminate; auto.
  - subst. now apply date_before_irrefl in H'.
  - now apply date_before_asym in H'.
Qed.

Lemma date_cmp_Eq a b : is_Eq (date_cmp a b) = true ↔ a = b.
Proof.
  pose proof (date_cmp_spec a b) as H.
  destruct (date_cmp a b); simpl; split; intros H'; try discriminate; auto;
    subst; now apply date_before_irrefl in H.
Qed.

Lemma date_cmp_Gt a b : is_Gt (date_cmp a b) = true ↔ date_before b a.
Proof.
  pose proof (date_cmp_spec a b) as H.
  destruct (date_cmp a b); simpl; split; intros H'; try discriminate; auto.
  - subst. now apply date_before_irrefl in H'.
  - now apply date_before_asym in H'.
Qed.

(** C5. At a fixed clock instant with current date [today], for every
    valid date-only string with parsed date [D]: [is_past] holds
    exactly when [D < today], [is_today] exactly when [D = today],
    [is_future] exactly when [today < D], and exactly one of the three
    returns true. *)
Theorem date_only_trichotomy
  (c : clock) (t : datetime) (s : string) (n1 n2 n3 : nat) :
  fixed_clock c t →
  date_only_valid s = true →
  ∃ (parsed : datetime) (past today_ future : bool),
    let D := date_of parsed in
    let today := date_of t in
    strptime s "%Y-%m-%d" = Ok parsed
    ∧ run (is_past s) c n1 = Ok past
    ∧ run (is_today s) c n2 = Ok today_
    ∧ run (is_future s) c n3 = Ok future
    ∧ (past = true ↔ date_before D today)
    ∧ (today_ = true ↔ D = today)
    ∧ (future = true ↔ date_before today D)
    ∧ ((past = true ∧ today_ = false ∧ future = false)
       ∨ (past = false ∧ today_ = true ∧ future = false)
       ∨ (past = false ∧ today_ = false ∧ future = true)).
Proof.
  intros Hc Hv. destruct (date_only_resolves s Hv) as (parsed & Hp & Hr).
  exists parsed, (is_Lt (date_cmp (date_of parsed) (date_of t))),
    (is_Eq (date_cmp (date_of parsed) (date_of t))),
    (is_Gt (date_cmp (date_of parsed) (date_of t))).
  cbv zeta.
  change (is_today s) with (named op_eq s).
  change (is_past s) with (named op_lt s).
  change (is_future s) with (named op_gt s).
  rewrite !(run_named _ s _ c _ Hr), !Hc.
  split; [exact Hp|].
  split; [reflexivity|]. split; [reflexivity|]. split; [reflexivity|].
  split; [apply date_cmp_Lt|]. split; [apply date_cmp_Eq|].
  split; [apply date_cmp_Gt|].
  destruct (date_cmp (date_of parsed) (date_of t)); simpl; auto.
Qed.

Lemma date_only_trichotomy_witness :
  fixed_clock clock_2030_06_15 noon_2030_06_15
  ∧ date_only_valid "2030-06-14" = true
  ∧ ∃ (parsed : datetime) (past today_ future : bool),
      strptime "2030-06-14" "%Y-%m-%d" = Ok parsed
      ∧ run (is_past "2030-06-14") clock_2030_06_15 0 = Ok past
      ∧ run (is_today "2030-06-14") clock_2030_06_15 2 = Ok today_
      ∧ run (is_future "2030-06-14") clock_2030_06_15 4 = Ok future
      ∧ (past = true ↔ date_before (date_of parsed) (date_of noon_2030_06_15))
      ∧ (today_ = true ↔ date_of parsed = date_of noon_2030_06_15)
      ∧ (future = true ↔ date_before (date_of noon_2030_06_15) (date_of parsed))
      ∧ ((past = true ∧ today_ = false ∧ future = false)
         ∨ (past = false ∧ today_ = true ∧ future = false)
         ∨ (past = false ∧ today_ = false ∧ future = true)).
Proof.
  assert (Hc : fixed_clock clock_2030_06_15 noon_2030_06_15)
    by (intros k; reflexivity).
  assert (Hv : date_only_valid "2030-06-14" = true) by reflexivity.
  split; [exact Hc|]. split; [exact Hv|].
  exact (date_only_trichotomy clock_2030_06_15 noon_2030_06_15
           "2030-06-14" 0 2 4 Hc Hv).
Defined.

(** ** The resolved pair *)

Lemma strptime_whole_seconds s fmt t : strptime s fmt = Ok t → microsecond t = 0.
Proof.
  unfold strptime. destruct (scan fmt s found0) as [r|]; [|discriminate].
  destruct (datetime_ok _); [|discriminate]. now intros [= <-].
Qed.

(** C7. Whenever [get_dates] returns, its dictionary is empty (no
    pattern matched) or holds a now value and a check value of the same
    variant: two calendar dates, or two timestamps; neither carries a
    sub-second part.  A date is never paired with a timestamp. *)
Theorem resolved_pair_same_variant
  (s : string) (c : clock) (n n' : nat) (d : gmap string temporal) :
  get_dates s c n = (Ok d, n') →
  (d = ∅ ∧ matches_none s = true)
  ∨ ∃ now check,
      d = pair_of now check
      ∧ d !! "now_date" = Some now ∧ d !! "check_date" = Some check
      ∧ same_variant now check = true
      ∧ subsecond now = 0 ∧ subsecond check = 0.
Proof.
  intros H.
  destruct (re_match pattern_date s) eqn:E1;
    [|destruct (re_match pattern_T s) eqn:E2;
      [|destruct (re_match pattern_space s) eqn:E3]].
  - rewrite (get_dates_date s c n E1) in H.
    destruct (strptime s "%Y-%m-%d") as [t|] eqn:Ht; [|discriminate].
    injection H as <- _. right. eexists _, _. split; [reflexivity|].
    rewrite pair_of_now, pair_of_check. auto.
  - rewrite (get_dates_T s c n E2) in H.
    destruct (strptime s "%Y-%m-%dT%H:%M:%S") as [t|] eqn:Ht; [|discriminate].
    injection H as <- _. right. eexists _, _. split; [reflexivity|].
    rewrite pair_of_now, pair_of_check.
    apply strptime_whole_seconds in Ht. simpl. auto 10.
  - rewrite (get_dates_space s c n E3) in H.
    destruct (strptime s "%Y-%m-%d %H:%M:%S") as [t|] eqn:Ht; [|discriminate].
    injection H as <- _. right. eexists _, _. split; [reflexivity|].
    rewrite pair_of_now, pair_of_check.
    apply strptime_whole_seconds in Ht. simpl. auto 10.
  - rewrite (get_dates_none s c n E1 E2 E3) in H. injection H as <- _.
    left. split; [reflexivity|]. unfold matches_none. now rewrite E1, E2, E3.
Qed.

Lemma resolved_pair_same_variant_witness :
  get_dates "2030-06-15T08:30:00" clock_2030_06_15 0%nat
  = (Ok (pair_of (VDateTime (mkdatetime (mkdate 2030 6 15) 12 0 0 0))
                 (VDateTime (mkdatetime (mkdate 2030 6 15) 8 30 0 0))), 1%nat)
  ∧ ∃ now check,
      pair_of (VDateTime (mkdatetime (mkdate 2030 6 15) 12 0 0 0))
              (VDateTime (mkdatetime (mkdate 2030 6 15) 8 30 0 0))
      = pair_of now check
      ∧ same_variant now check = true
      ∧ subsecond now = 0 ∧ subsecond check = 0.
Proof.
  assert (H : get_dates "2030-06-15T08:30:00" clock_2030_06_15 0%nat
    = (Ok (pair_of (VDateTime (mkdatetime (mkdate 2030 6 15) 12 0 0 0))
                   (VDateTime (mkdatetime (mkdate 2030 6 15) 8 30 0 0))), 1%nat))
    by reflexivity.
  split; [exact H|].
  destruct (resolved_pair_same_variant _ _ _ _ _ H)
    as [[_ Hn] | (now & check & Hd & _ & _ & Hv)].
  - discriminate Hn.
  - exists now, check. split; [exact Hd | exact Hv].
Defined.

(** C4, as amended.  When the string matches a pattern and [strptime]
    accepts it: for the date-only pattern, now is the calendar date of
    the clock reading and check the parsed calendar date; for either
    timestamp pattern, now is the clock reading with its microseconds
    set to zero and check the parsed date and time.  One reading of the
    clock is consumed. *)
Theorem get_dates_resolution (s : string) (t : datetime) (c : clock) (n : nat) :
  (re_match pattern_date s = true ∧ strptime s "%Y-%m-%d" = Ok t
   ∨ re_match pattern_T s = true ∧ strptime s "%Y-%m-%dT%H:%M:%S" = Ok t
   ∨ re_match pattern_space s = true ∧ strptime s "%Y-%m-%d %H:%M:%S" = Ok t) →
  ∃ now check,
    get_dates s c n = (Ok (pair_of now check), S n)
    ∧ (re_match pattern_date s = true →
         now = VDate (dt_date (c n)) ∧ check = VDate (dt_date t))
    ∧ (re_match pattern_date s = false →
         (∃ u, now = VDateTime u
                ∧ dt_date u = dt_date (c n) ∧ hour u = hour (c n)
                ∧ minute u = minute (c n) ∧ second u = second (c n)
                ∧ microsecond u = 0)
         ∧ check = VDateTime t ∧ microsecond t = 0).
Proof.
  intros [[Hm Hp] | [[Hm Hp] | [Hm Hp]]].
  - exists (VDate (date_of (c n))), (VDate (date_of t)).
    rewrite (get_dates_date s c n Hm), Hp. split; [reflexivity|].
    split; [auto|]. congruence.
  - exists (VDateTime (replace_microsecond0 (c n))), (VDateTime t).
    rewrite (get_dates_T s c n Hm), Hp. split; [reflexivity|].
    rewrite (T_excludes_date s Hm). split; [discriminate|]. intros _.
    apply strptime_whole_seconds in Hp. split; [|auto].
    exists (replace_microsecond0 (c n)). simpl. auto 10.
  - exists (VDateTime (replace_microsecond0 (c n))), (VDateTime t).
    rewrite (get_dates_space s c n Hm), Hp. split; [reflexivity|].
    rewrite (space_excludes_date s Hm). split; [discriminate|]. intros _.
    apply strptime_whole_seconds in Hp. split; [|auto].
    exists (replace_microsecond0 (c n)). simpl. auto 10.
Qed.

Lemma get_dates_resolution_witness :
  re_match pattern_date "1970-01-01" = true
  ∧ strptime "1970-01-01" "%Y-%m-%d" = Ok (mkdatetime (mkdate 1970 1 1) 0 0 0 0)
  ∧ ∃ now check,
      get_dates "1970-01-01" clock_2030_06_15 0%nat = (Ok (pair_of now check), 1%nat)
      ∧ (re_match pattern_date "1970-01-01" = true →
         now = VDate (mkdate 2030 6 15) ∧ check = VDate (mkdate 1970 1 1)).
Proof.
  assert (Hm : re_match pattern_date "1970-01-01" = true) by reflexivity.
  assert (Hp : strptime "1970-01-01" "%Y-%m-%d"
               = Ok (mkdatetime (mkdate 1970 1 1) 0 0 0 0)) by reflexivity.
  split; [exact Hm|]. split; [exact Hp|].
  destruct (get_dates_resolution "1970-01-01" _ clock_2030_06_15 0
              (or_introl (conj Hm Hp))) as (now & check & Hg & Hd & _).
  exists now, check. split; [exact Hg | exact Hd].
Defined.

(** A string that matches a pattern and that [strptime] rejects yields
    no pair: the exception of [strptime] leaves [get_dates]. *)
Lemma get_dates_unparsable s e c n :
  (re_match pattern_date s = true ∧ strptime s "%Y-%m-%d" = Raise e
   ∨ re_match pattern_T s = true ∧ strptime s "%Y-%m-%dT%H:%M:%S" = Raise e
   ∨ re_match pattern_space s = true ∧ strptime s "%Y-%m-%d %H:%M:%S" = Raise e) →
  get_dates s c n = (Raise e, S n).
Proof.
  intros [[Hm Hp] | [[Hm Hp] | [Hm Hp]]].
  - now rewrite (get_dates_date s c n Hm), Hp.
  - now rewrite (get_dates_T s c n Hm), Hp.
  - now rewrite (get_dates_space s c n Hm), Hp.
Qed.

(** C4, counterexample.  ["2030-02-30"] matches the date-only pattern
    and ["2030-06-15T25:00:00"] the timestamp pattern, but neither
    names a date or time: [strptime] raises [ValueError] and no now
    and check are produced. *)
Lemma matching_string_need_not_resolve :
  re_match pattern_date "2030-02-30" = true
  ∧ run (get_dates "2030-02-30") clock_2030_06_15 0 = Raise ValueError
  ∧ re_match pattern_T "2030-06-15T25:00:00" = true
  ∧ run (get_dates "2030-06-15T25:00:00") clock_2030_06_15 0 = Raise ValueError.
Proof. repeat split; reflexivity. Qed.

(** ** The table of filters *)

(** C9, as amended.  The table has six entries: the names [is_due],
    [is_future], [is_past], [is_today_or_future], [is_today_or_past]
    and [is_today], each bound to the predicate of that name, and no
    other name is bound. *)
Theorem filters_table :
  filters !! "is_due" = Some (Filter2 is_due)
  ∧ filters !! "is_future" = Some (Filter1 is_future)
  ∧ filters !! "is_past" = Some (Filter1 is_past)
  ∧ filters !! "is_today_or_future" = Some (Filter1 is_today_or_future)
  ∧ filters !! "is_today_or_past" = Some (Filter1 is_today_or_past)
  ∧ filters !! "is_today" = Some (Filter1 is_today)
  ∧ (∀ name, name ∉ filter_names → filters !! name = None)
  ∧ size filters = 6%nat.
Proof.
  repeat (split; [reflexivity|]). split; [|reflexivity].
  intros name. unfold filter_names. rewrite !not_elem_of_cons.
  intros (H1 & H2 & H3 & H4 & H5 & H6 & _).
  unfold filters. rewrite !lookup_insert_ne by congruence.
  apply lookup_singleton_ne. congruence.
Qed.

Lemma filters_table_witness :
  ("get_dates" ∉ filter_names) ∧ filters !! "get_dates" = None.
Proof.
  assert (H : "get_dates" ∉ filter_names).
  { unfold filter_names. rewrite !not_elem_of_cons.
    repeat split; try discriminate. apply not_elem_of_nil. }
  split; [exact H|].
  destruct filters_table as (_ & _ & _ & _ & _ & _ & Hnone & _).
  exact (Hnone "get_dates" H).
Defined.

(** C9, counterexample.  The callables in the table are six, not
    seven. *)
Lemma filters_are_not_seven :
  size filters = List.length filter_names ∧ size filters ≠ 7%nat.
Proof. split; [reflexivity|]. vm_compute. discriminate. Qed.

(** ** Rendered timestamps parse back *)

Lemma digit_char_digit d :
  0 ≤ d ≤ 9 → is_digit (digit_char d) = true ∧ digit_val (digit_char d) = d.
Proof.
  intros H.
  assert (d = 0 ∨ d = 1 ∨ d = 2 ∨ d = 3 ∨ d = 4 ∨ d = 5 ∨ d = 6 ∨ d = 7
          ∨ d = 8 ∨ d = 9) as Hd by lia.
  decompose [or] Hd; subst; split; reflexivity.
Qed.

Lemma read_digits_pad2 w v rest acc :
  0 ≤ v < 100 →
  read_digits (S (S w)) (pad2 v rest) acc = read_digits w rest (100 * acc + v).
Proof.
  intros H. unfold pad2. cbn [read_digits].
  destruct (digit_char_digit (v / 10)) as [-> ->];
    [split; [apply Z.div_pos | apply Z.lt_succ_r, Z.div_lt_upper_bound]; lia|].
  destruct (digit_char_digit (v mod 10)) as [-> ->];
    [pose proof (Z.mod_pos_bound v 10); lia|].
  f_equal. pose proof (Z.div_mod v 10). lia.
Qed.

Lemma read_digits_pad4 v rest :
  0 ≤ v < 10000 → read_digits 4 (pad4 v rest) 0 = Some (v, rest).
Proof.
  intros H. unfold pad4.
  rewrite !read_digits_pad2; cbn [read_digits].
  - do 2 f_equal. pose proof (Z.div_mod v 100). lia.
  - pose proof (Z.mod_pos_bound v 100); lia.
  - split; [apply Z.div_pos | apply Z.div_lt_upper_bound]; lia.
Qed.

Lemma re_match_pad2 v p s :
  0 ≤ v < 100 → re_match (digits 2 ++ p) (pad2 v s) = re_match p s.
Proof.
  intros H. unfold pad2. cbn [digits replicate app re_match item_matches].
  destruct (digit_char_digit (v / 10)) as [-> _];
    [split; [apply Z.div_pos | apply Z.lt_succ_r, Z.div_lt_upper_bound]; lia|].
  destruct (digit_char_digit (v mod 10)) as [-> _];
    [pose proof (Z.mod_pos_bound v 10); lia|].
  reflexivity.
Qed.

Lemma re_match_pad4 v p s :
  0 ≤ v < 10000 → re_match (digits 4 ++ p) (pad4 v s) = re_match p s.
Proof.
  intros H. unfold pad4.
  change (digits 4 ++ p)%list with (digits 2 ++ (digits 2 ++ p))%list.
  rewrite !re_match_pad2; [reflexivity| |].
  - pose proof (Z.mod_pos_bound v 100); lia.
  - split; [apply Z.div_pos | apply Z.div_lt_upper_bound]; lia.
Qed.

Lemma re_match_lit c p s : re_match (Lit c :: p) (String c s) = re_match p s.
Proof. cbn [re_match item_matches]. now rewrite Ascii.eqb_refl. Qed.

Lemma scan_field d fmt s r f w lo hi v s' :
  directive d = Some (f, w, lo, hi) →
  read_digits w s 0 = Some (v, s') →
  lo ≤ v ≤ hi →
  scan (String "%" (String d fmt)) s r = scan fmt s' (set_field f v r).
Proof.
  intros Hd Hr [Hlo Hhi]. cbn [scan]. rewrite Ascii.eqb_refl, Hd, Hr.
  apply Z.leb_le in Hlo, Hhi. now rewrite Hlo, Hhi.
Qed.

Lemma scan_lit c fmt s r :
  Ascii.eqb c "%" = false →
  scan (String c fmt) (String c s) r = scan fmt s r.
Proof. intros H. cbn [scan]. now rewrite H, Ascii.eqb_refl. Qed.

Lemma days_in_month_le_31 y m : days_in_month y m ≤ 31.
Proof.
  unfold days_in_month. destruct (_ && _); [lia|].
  destruct (Z.to_nat m) as [|[|[|[|[|[|[|[|[|[|[|[|[|k]]]]]]]]]]]]];
    simpl; try lia.
  destruct k; simpl; lia.
Qed.

Lemma datetime_ok_bounds t :
  datetime_ok t = true →
  1 ≤ year (dt_date t) ≤ 9999 ∧ 1 ≤ month (dt_date t) ≤ 12
  ∧ 1 ≤ day (dt_date t) ≤ 31 ∧ 0 ≤ hour t ≤ 23
  ∧ 0 ≤ minute t ≤ 59 ∧ 0 ≤ second t ≤ 59.
Proof.
  unfold datetime_ok. rewrite !andb_true_iff, !Z.leb_le.
  pose proof (days_in_month_le_31 (year (dt_date t)) (month (dt_date t))).
  lia.
Qed.

(** A datetime without microseconds, rendered with any separator other
    than [%], is read back by the format with that separator. *)
Lemma strptime_isoformat sep t :
  datetime_ok t = true → microsecond t = 0 → Ascii.eqb sep "%" = false →
  strptime (isoformat sep t)
    (String "%" (String "Y" (String "-" (String "%" (String "m" (String "-"
      (String "%" (String "d" (String sep "%H:%M:%S")))))))))
  = Ok t.
Proof.
  intros Hok Hus Hsep.
  destruct (datetime_ok_bounds t Hok) as (Hy & Hm & Hd & HH & HM & HS).
  unfold strptime, isoformat.
  erewrite scan_field;
    [|reflexivity|apply read_digits_pad4; lia|cbv beta; lia].
  rewrite scan_lit by reflexivity.
  erewrite scan_field;
    [|reflexivity|rewrite read_digits_pad2 by lia; reflexivity|cbv beta; lia].
  rewrite scan_lit by reflexivity.
  erewrite scan_field;
    [|reflexivity|rewrite read_digits_pad2 by lia; reflexivity|cbv beta; lia].
  rewrite scan_lit by exact Hsep.
  erewrite scan_field;
    [|reflexivity|rewrite read_digits_pad2 by lia; reflexivity|cbv beta; lia].
  rewrite scan_lit by reflexivity.
  erewrite scan_field;
    [|reflexivity|rewrite read_digits_pad2 by lia; reflexivity|cbv beta; lia].
  rewrite scan_lit by reflexivity.
  erewrite scan_field;
    [|reflexivity|rewrite read_digits_pad2 by lia; reflexivity|cbv beta; lia].
  cbn [scan].
  replace (datetime_of_found _) with t; [now rewrite Hok|].
  destruct t as [[y m d] H M S us]. simpl in *. subst us.
  unfold datetime_of_found. simpl. repeat f_equal; lia.
Qed.

Lemma re_match_isoformat sep t :
  datetime_ok t = true →
  re_match (pattern_date ++ [Lit sep] ++ pattern_time) (isoformat sep t) = true.
Proof.
  intros Hok.
  destruct (datetime_ok_bounds t Hok) as (Hy & Hm & Hd & HH & HM & HS).
  unfold isoformat, pattern_date, pattern_time.
  rewrite <- !app_assoc.
  rewrite re_match_pad4 by lia. cbn [app]. rewrite re_match_lit.
  rewrite re_match_pad2 by lia. cbn [app]. rewrite re_match_lit.
  rewrite re_match_pad2 by lia. cbn [app]. rewrite re_match_lit.
  rewrite re_match_pad2 by lia. cbn [app]. rewrite re_match_lit.
  rewrite re_match_pad2 by lia. cbn [app]. rewrite re_match_lit.
  rewrite <- (app_nil_r (digits 2)).
  rewrite re_match_pad2 by lia. reflexivity.
Qed.

(** C8. For every date and time, the rendering with [T] and the
    rendering with a space match their patterns and resolve to the
    same check value, the timestamp that was rendered; so do in
    particular ["1970-01-01T01:01:01"] and ["1970-01-01 01:01:01"]. *)
Theorem T_and_space_resolve_alike (t : datetime) (c : clock) (n m : nat) :
  datetime_ok t = true →
  microsecond t = 0 →
  run (get_dates (isoformat "T" t) ≫= λ d, subscript d "check_date") c n
    = Ok (VDateTime t)
  ∧ run (get_dates (isoformat " " t) ≫= λ d, subscript d "check_date") c m
    = Ok (VDateTime t).
Proof.
  intros Hok Hus.
  assert (HT : resolves_to (isoformat "T" t) (VDateTime t)).
  { intros c' n'. rewrite get_dates_T by apply (re_match_isoformat "T" t Hok).
    now rewrite (strptime_isoformat "T" t Hok Hus eq_refl). }
  assert (Hsp : resolves_to (isoformat " " t) (VDateTime t)).
  { intros c' n'. rewrite get_dates_space by apply (re_match_isoformat " " t Hok).
    now rewrite (strptime_isoformat " " t Hok Hus eq_refl). }
  unfold run. now rewrite (fetch_check _ _ c n HT), (fetch_check _ _ c m Hsp).
Qed.

Lemma T_and_space_resolve_alike_witness :
  datetime_ok (mkdatetime (mkdate 1970 1 1) 1 1 1 0) = true
  ∧ microsecond (mkdatetime (mkdate 1970 1 1) 1 1 1 0) = 0
  ∧ run (get_dates "1970-01-01T01:01:01" ≫= λ d, subscript d "check_date")
        clock_2030_06_15 0
    = Ok (VDateTime (mkdatetime (mkdate 1970 1 1) 1 1 1 0))
  ∧ run (get_dates "1970-01-01 01:01:01" ≫= λ d, subscript d "check_date")
        clock_2030_06_15 5
    = Ok (VDateTime (mkdatetime (mkdate 1970 1 1) 1 1 1 0)).
Proof.
  assert (Hok : datetime_ok (mkdatetime (mkdate 1970 1 1) 1 1 1 0) = true)
    by reflexivity.
  assert (Hus : microsecond (mkdatetime (mkdate 1970 1 1) 1 1 1 0) = 0)
    by reflexivity.
  split; [exact Hok|]. split; [exact Hus|].
  exact (T_and_space_resolve_alike (mkdatetime (mkdate 1970 1 1) 1 1 1 0)
           clock_2030_06_15 0 5 Hok Hus).
Defined.

(** * Further properties *)

(** ** The three kinds of date string *)

Lemma strptime_raises s fmt e : strptime s fmt = Raise e → e = ValueError.
Proof.
  unfold strptime. destruct (scan fmt s found0) as [r|]; [|congruence].
  destruct (datetime_ok _); congruence.
Qed.

(** A string is valid and resolves; or it matches no pattern and
    [get_dates] returns the empty dictionary without reading the clock;
    or it matches a pattern, is rejected by [strptime], and [get_dates]
    raises [ValueError] after one reading. *)
Lemma datestring_cases s :
  (valid_datestring s = true ∧ matches_none s = false
   ∧ ∃ check, resolves_to s check)
  ∨ (valid_datestring s = false ∧ matches_none s = true
     ∧ ∀ c n, get_dates s c n = (Ok ∅, n))
  ∨ (valid_datestring s = false ∧ matches_none s = false
     ∧ ∀ c n, get_dates s c n = (Raise ValueError, S n)).
Proof.
  unfold valid_datestring, date_only_valid, timestamp_valid, matches_none.
  destruct (re_match pattern_date s) eqn:E1;
    [|destruct (re_match pattern_T s) eqn:E2;
      [|destruct (re_match pattern_space s) eqn:E3]].
  - rewrite (date_excludes_T s E1), (date_excludes_space s E1).
    destruct (strptime s "%Y-%m-%d") as [t|e] eqn:Hp.
    + left. repeat split; try reflexivity. exists (VDate (date_of t)).
      intros c n. now rewrite get_dates_date, Hp.
    + right; right. repeat split; try reflexivity. intros c n.
      rewrite get_dates_date, Hp by assumption.
      now rewrite (strptime_raises _ _ _ Hp).
  - rewrite (T_excludes_space s E2).
    destruct (strptime s "%Y-%m-%dT%H:%M:%S") as [t|e] eqn:Hp.
    + left. repeat split; try reflexivity. exists (VDateTime t).
      intros c n. now rewrite get_dates_T, Hp.
    + right; right. repeat split; try reflexivity. intros c n.
      rewrite get_dates_T, Hp by assumption.
      now rewrite (strptime_raises _ _ _ Hp).
  - destruct (strptime s "%Y-%m-%d %H:%M:%S") as [t|e] eqn:Hp.
    + left. repeat split; try reflexivity. exists (VDateTime t).
      intros c n. now rewrite get_dates_space, Hp.
    + right; right. repeat split; try reflexivity. intros c n.
      rewrite get_dates_space, Hp by assumption.
      now rewrite (strptime_raises _ _ _ Hp).
  - right; left. repeat split; try reflexivity. intros c n.
    now apply get_dates_none.
Qed.

(** The runs of the named predicates and of [is_due], with the tick at
    which they end. *)
Lemma named_resolved op s check c n :
  resolves_to s check →
  named op s c n = (op check (now_as check (c (S n))), S (S n)).
Proof.
  intros H. unfold named.
  rewrite (bind_ok _ _ _ _ _ _ (fetch_check s check c n H)).
  rewrite (bind_ok _ _ _ _ _ _ (fetch_now s check c (S n) H)).
  rewrite bind_lift.
  destruct (op check (now_as check (c (S n)))) as [[|]|]; reflexivity.
Qed.

Lemma named_failing op s c n e n' :
  get_dates s c n = (Raise e, n') → named op s c n = (Raise e, n').
Proof.
  intros H. unfold named.
  now rewrite (bind_raise _ _ _ _ _ _ (bind_raise _ _ _ _ _ _ H)).
Qed.

Lemma named_empty op s c n :
  get_dates s c n = (Ok ∅, n) →
  named op s c n = (Raise (KeyError "check_date"), n).
Proof.
  intros H. unfold named.
  erewrite bind_raise; [reflexivity|].
  now rewrite (bind_ok _ _ _ _ _ _ H).
Qed.

Lemma is_due_resolved s o check c n :
  resolves_to s check →
  is_due s o c n =
    (match ops !! (if negb (truthy o) then "==" else default "" o) with
     | Some f => f (now_as check (c (S n))) check
     | None => Raise (KeyError (if negb (truthy o) then "==" else default "" o))
     end, S (S n)).
Proof.
  intros H. unfold is_due.
  rewrite (bind_ok _ _ _ _ _ _ (fetch_check s check c n H)).
  rewrite (bind_ok _ _ _ _ _ _ (fetch_now s check c (S n) H)).
  unfold subscript.
  destruct (ops !! _); reflexivity.
Qed.

Lemma is_due_failing s o c n e n' :
  get_dates s c n = (Raise e, n') → is_due s o c n = (Raise e, n').
Proof.
  intros H. unfold is_due.
  now rewrite (bind_raise _ _ _ _ _ _ (bind_raise _ _ _ _ _ _ H)).
Qed.

Lemma is_due_empty s o c n :
  get_dates s c n = (Ok ∅, n) →
  is_due s o c n = (Raise (KeyError "check_date"), n).
Proof.
  intros H. unfold is_due.
  erewrite bind_raise; [reflexivity|].
  now rewrite (bind_ok _ _ _ _ _ _ H).
Qed.

Lemma named_predicates_named p :
  p ∈ named_predicates →
  ∃ op, p = named op ∧ op ∈ [op_lt; op_le; op_gt; op_ge; op_eq].
Proof.
  unfold named_predicates. rewrite !elem_of_cons, elem_of_nil.
  intros [->|[->|[->|[->|[->|[]]]]]]; eexists; (split; [reflexivity|]);
    rewrite !elem_of_cons; auto 10.
Qed.

(** Against the instant at its own precision a value always has an
    order: none of the six operators raises. *)
Lemma operators_total check t :
  ∃ r, temporal_cmp (now_as check t) check = Some r
       ∧ temporal_cmp check (now_as check t) = Some (CompOpp r).
Proof.
  destruct (temporal_cmp_now_as check t) as (r & H1 & H2).
  exists (CompOpp r). rewrite H1, H2. now destruct r.
Qed.

Lemma named_answers op check t :
  op ∈ [op_lt; op_le; op_gt; op_ge; op_eq] →
  ∃ b, op check (now_as check t) = Ok b.
Proof.
  destruct (named_comparisons check t) as (r & H1 & H2 & H3 & H4 & H5 & _).
  rewrite !elem_of_cons, elem_of_nil.
  intros [->|[->|[->|[->|[->|[]]]]]]; eauto.
Qed.

Lemma is_due_valid_outcome s o check c n :
  resolves_to s check →
  (∃ b, run (is_due s o) c n = Ok b)
  ∨ (∃ k, run (is_due s o) c n = Raise (KeyError k) ∧ ops !! k = None).
Proof.
  intros H. unfold run. rewrite (is_due_resolved s o check c n H). simpl.
  destruct (ops !! _) as [f|] eqn:E.
  - left. eapply operators_answer, E.
  - right. eauto.
Qed.

(** X1.  A string that matches one of the patterns without naming a
    date or time makes each of the six predicates raise [ValueError],
    whatever the operator, after a single reading of the clock. *)
Theorem unparsable_input_raises_ValueError
  (s : string) (o : option string) (c : clock) (n : nat)
  (p : string → py bool) :
  p ∈ named_predicates →
  matches_none s = false →
  valid_datestring s = false →
  p s c n = (Raise ValueError, S n)
  ∧ is_due s o c n = (Raise ValueError, S n).
Proof.
  intros [op [-> _]]%named_predicates_named Hm Hv.
  destruct (datestring_cases s) as [(H & _) | [(_ & H & _) | (_ & _ & H)]];
    try congruence.
  split; [apply named_failing | apply is_due_failing]; apply H.
Qed.

Lemma unparsable_input_raises_ValueError_witness :
  (is_future ∈ named_predicates)
  ∧ matches_none "2030-13-01" = false
  ∧ valid_datestring "2030-13-01" = false
  ∧ is_future "2030-13-01" clock_2030_06_15 0%nat = (Raise ValueError, 1%nat)
  ∧ is_due "2030-13-01" (Some "~=") clock_2030_06_15 0%nat
    = (Raise ValueError, 1%nat).
Proof.
  assert (Hp : is_future ∈ named_predicates).
  { unfold named_predicates. rewrite !elem_of_cons. auto. }
  assert (Hm : matches_none "2030-13-01" = false) by reflexivity.
  assert (Hv : valid_datestring "2030-13-01" = false) by reflexivity.
  split; [exact Hp|]. split; [exact Hm|]. split; [exact Hv|].
  exact (unparsable_input_raises_ValueError "2030-13-01" (Some "~=")
           clock_2030_06_15 0 is_future Hp Hm Hv).
Defined.

(** X2.  A predicate returns a boolean only on a valid string, and a
    named predicate on every valid string.  No predicate ever raises
    [TypeError]: an ordering never meets a date against a datetime. *)
Theorem boolean_exactly_on_valid
  (s : string) (o : option string) (c : clock) (n : nat)
  (p : string → py bool) :
  p ∈ named_predicates →
  ((∃ b, run (p s) c n = Ok b) ↔ valid_datestring s = true)
  ∧ ((∃ b, run (is_due s o) c n = Ok b) → valid_datestring s = true)
  ∧ run (p s) c n ≠ Raise TypeError
  ∧ run (is_due s o) c n ≠ Raise TypeError.
Proof.
  intros [op [-> Hop]]%named_predicates_named. unfold run.
  destruct (datestring_cases s)
    as [(Hv & _ & check & H) | [(Hv & _ & H) | (Hv & _ & H)]].
  - rewrite (named_resolved op s check c n H). simpl.
    destruct (named_answers op check (c (S n)) Hop) as [b Hb]. rewrite Hb.
    destruct (is_due_valid_outcome s o check c n H) as [[b' E] | (k & E & _)];
      unfold run in E; rewrite E; repeat split; eauto; discriminate.
  - rewrite (named_empty op s c n (H c n)), (is_due_empty s o c n (H c n)), Hv.
    simpl. repeat split; try discriminate; intros [b Hb]; discriminate.
  - rewrite (named_failing op s c n _ _ (H c n)),
      (is_due_failing s o c n _ _ (H c n)), Hv.
    simpl. repeat split; try discriminate; intros [b Hb]; discriminate.
Qed.

Lemma boolean_exactly_on_valid_witness :
  (is_past ∈ named_predicates)
  ∧ ((∃ b, run (is_past "2030-02-30") clock_2030_06_15 0 = Ok b)
     ↔ valid_datestring "2030-02-30" = true)
  ∧ run (is_past "2030-02-30") clock_2030_06_15 0 ≠ Raise TypeError.
Proof.
  assert (Hp : is_past ∈ named_predicates).
  { unfold named_predicates. rewrite !elem_of_cons. auto. }
  split; [exact Hp|].
  destruct (boolean_exactly_on_valid "2030-02-30" None clock_2030_06_15 0
              is_past Hp) as (H1 & _ & H2 & _).
  split; [exact H1 | exact H2].
Defined.

(** X3.  The outcome of a predicate depends on the clock only through
    the second reading after its start: the first call of [get_dates]
    supplies the check value, the second the now value.  On a valid
    string the clock is read exactly twice. *)
Theorem outcome_from_second_reading
  (s : string) (o : option string) (c c' : clock) (n m : nat)
  (p : string → py bool) :
  p ∈ named_predicates →
  c (S n) = c' (S m) →
  run (p s) c n = run (p s) c' m
  ∧ run (is_due s o) c n = run (is_due s o) c' m
  ∧ (valid_datestring s = true →
       ticks (p s) c n = S (S n) ∧ ticks (is_due s o) c n = S (S n)).
Proof.
  intros [op [-> Hop]]%named_predicates_named Hc. unfold run, ticks.
  destruct (datestring_cases s)
    as [(Hv & _ & check & H) | [(Hv & _ & H) | (Hv & _ & H)]].
  - rewrite !(named_resolved op s check _ _ H), !(is_due_resolved s o check _ _ H).
    simpl. now rewrite Hc.
  - rewrite !(named_empty op s _ _ (H _ _)), !(is_due_empty s o _ _ (H _ _)), Hv.
    repeat split; discriminate.
  - rewrite !(named_failing op s _ _ _ _ (H _ _)),
      !(is_due_failing s o _ _ _ _ (H _ _)), Hv.
    repeat split; discriminate.
Qed.

Lemma outcome_from_second_reading_witness :
  (is_today ∈ named_predicates)
  ∧ clock_past_midnight 2%nat = mkdatetime (mkdate 2030 6 16) 0 0 0 100
  ∧ run (is_today "2030-06-16") clock_past_midnight 1
    = run (is_today "2030-06-16")
        (λ _, mkdatetime (mkdate 2030 6 16) 0 0 0 100) 0.
Proof.
  assert (Hp : is_today ∈ named_predicates).
  { unfold named_predicates. rewrite !elem_of_cons. auto 10. }
  assert (Hc : clock_past_midnight 2%nat = mkdatetime (mkdate 2030 6 16) 0 0 0 100)
    by reflexivity.
  split; [exact Hp|]. split; [exact Hc|].
  exact (proj1 (outcome_from_second_reading "2030-06-16" None
           clock_past_midnight (λ _, mkdatetime (mkdate 2030 6 16) 0 0 0 100)
           1 0 is_today Hp Hc)).
Defined.

(** ** What of the clock a predicate sees *)

(** X4.  On a valid date-only string the outcome of every predicate
    depends only on the calendar date of the clock reading: the time of
    day is dropped before the comparison. *)
Theorem date_only_ignores_time_of_day
  (s : string) (o : option string) (c c' : clock) (n m : nat)
  (p : string → py bool) :
  p ∈ named_predicates →
  date_only_valid s = true →
  dt_date (c (S n)) = dt_date (c' (S m)) →
  run (p s) c n = run (p s) c' m
  ∧ run (is_due s o) c n = run (is_due s o) c' m.
Proof.
  intros [op [-> Hop]]%named_predicates_named Hv Hc.
  destruct (date_only_resolves s Hv) as (t & _ & H). unfold run.
  rewrite !(named_resolved op s _ _ _ H), !(is_due_resolved s o _ _ _ H).
  simpl. unfold date_of. now rewrite Hc.
Qed.

Lemma date_only_ignores_time_of_day_witness :
  (is_today ∈ named_predicates)
  ∧ date_only_valid "2030-06-15" = true
  ∧ run (is_today "2030-06-15") clock_2030_06_15 0
    = run (is_today "2030-06-15") clock_past_midnight 0.
Proof.
  assert (Hp : is_today ∈ named_predicates).
  { unfold named_predicates. rewrite !elem_of_cons. auto 10. }
  assert (Hv : date_only_valid "2030-06-15" = true) by reflexivity.
  split; [exact Hp|]. split; [exact Hv|].
  exact (proj1 (date_only_ignores_time_of_day "2030-06-15" None
           clock_2030_06_15 clock_past_midnight 0 0 is_today Hp Hv eq_refl)).
Defined.

(** X5.  On a valid timestamp string the outcome of every predicate
    depends only on the clock reading cut to whole seconds: its
    microseconds never matter. *)
Theorem timestamp_ignores_microseconds
  (s : string) (o : option string) (c c' : clock) (n m : nat)
  (p : string → py bool) :
  p ∈ named_predicates →
  timestamp_valid s = true →
  replace_microsecond0 (c (S n)) = replace_microsecond0 (c' (S m)) →
  run (p s) c n = run (p s) c' m
  ∧ run (is_due s o) c n = run (is_due s o) c' m.
Proof.
  intros [op [-> Hop]]%named_predicates_named Hv Hc.
  destruct (timestamp_resolves s Hv) as (t & _ & H). unfold run.
  rewrite !(named_resolved op s _ _ _ H), !(is_due_resolved s o _ _ _ H).
  simpl. now rewrite Hc.
Qed.

Lemma timestamp_ignores_microseconds_witness :
  (is_today ∈ named_predicates)
  ∧ timestamp_valid "2030-06-15T12:00:00" = true
  ∧ run (is_today "2030-06-15T12:00:00") clock_2030_06_15 0
    = run (is_today "2030-06-15T12:00:00")
        (λ _, mkdatetime (mkdate 2030 6 15) 12 0 0 999999) 0.
Proof.
  assert (Hp : is_today ∈ named_predicates).
  { unfold named_predicates. rewrite !elem_of_cons. auto 10. }
  assert (Hv : timestamp_valid "2030-06-15T12:00:00" = true) by reflexivity.
  split; [exact Hp|]. split; [exact Hv|].
  exact (proj1 (timestamp_ignores_microseconds "2030-06-15T12:00:00" None
           clock_2030_06_15 (λ _, mkdatetime (mkdate 2030 6 15) 12 0 0 999999)
           0 0 is_today Hp Hv eq_refl)).
Defined.

(** X6.  [get_dates] reads the clock at most once: no string matches
    two of the three patterns, so the three [if]s never overwrite one
    another; the clock is read exactly when some pattern matches. *)
Theorem get_dates_reads_clock_at_most_once (s : string) (c : clock) (n : nat) :
  ¬ (re_match pattern_date s = true ∧ re_match pattern_T s = true)
  ∧ ¬ (re_match pattern_date s = true ∧ re_match pattern_space s = true)
  ∧ ¬ (re_match pattern_T s = true ∧ re_match pattern_space s = true)
  ∧ ticks (get_dates s) c n = (if matches_none s then n else S n).
Proof.
  split; [intros [H1 H2]; apply date_excludes_T in H1; congruence|].
  split; [intros [H1 H2]; apply date_excludes_space in H1; congruence|].
  split; [intros [H1 H2]; apply T_excludes_space in H1; congruence|].
  unfold ticks.
  destruct (datestring_cases s)
    as [(_ & Hm & check & H) | [(_ & Hm & H) | (_ & Hm & H)]];
    now rewrite Hm, H.
Qed.

(** ** The operators of [is_due] *)

(** X7.  At a fixed clock instant and on a valid string the operators
    of [is_due] come in complementary pairs: [!=] negates [==], [<=]
    negates [>], and [>=] negates [<]. *)
Theorem is_due_complementary_operators
  (c : clock) (t : datetime) (s : string) (n m : nat) :
  fixed_clock c t →
  valid_datestring s = true →
  run (is_due s (Some "!=")) c n = outcome_map negb (run (is_due s (Some "==")) c m)
  ∧ run (is_due s (Some "<=")) c n = outcome_map negb (run (is_due s (Some ">")) c m)
  ∧ run (is_due s (Some ">=")) c n = outcome_map negb (run (is_due s (Some "<")) c m)
  ∧ ∃ b, run (is_due s (Some "==")) c m = Ok b.
Proof.
  intros Hc Hv. destruct (valid_resolves s Hv) as [check H].
  destruct ops_lookup as (L1 & L2 & L3 & L4 & L5 & L6 & _).
  unfold run. rewrite !(is_due_resolved s _ check c _ H). simpl.
  rewrite L1, L2, L3, L4, L5, L6, !Hc.
  destruct (operators_total check t) as (r & Hr & _).
  unfold op_ne, op_eq, op_le, op_gt, op_ge, op_lt. rewrite Hr. simpl.
  repeat split; eauto.
Qed.

Lemma is_due_complementary_operators_witness :
  fixed_clock clock_2030_06_15 noon_2030_06_15
  ∧ valid_datestring "2030-06-14" = true
  ∧ run (is_due "2030-06-14" (Some "<=")) clock_2030_06_15 0
    = outcome_map negb (run (is_due "2030-06-14" (Some ">")) clock_2030_06_15 3).
Proof.
  assert (Hc : fixed_clock clock_2030_06_15 noon_2030_06_15)
    by (intros k; reflexivity).
  assert (Hv : valid_datestring "2030-06-14" = true) by reflexivity.
  split; [exact Hc|]. split; [exact Hv|].
  destruct (is_due_complementary_operators clock_2030_06_15 noon_2030_06_15
              "2030-06-14" 0 3 Hc Hv) as (_ & H & _).
  exact H.
Defined.

(** ** The order of tuples *)

Lemma cmp_tuple_opp xs ys : cmp_tuple ys xs = CompOpp (cmp_tuple xs ys).
Proof.
  revert ys. induction xs as [|x xs IH]; intros [|y ys]; simpl; try reflexivity.
  rewrite (Z.compare_antisym x y). destruct (x ?= y); simpl; auto.
Qed.

Lemma cmp_tuple_eq xs ys : cmp_tuple xs ys = Eq ↔ xs = ys.
Proof.
  revert ys. induction xs as [|x xs IH]; intros [|y ys]; simpl;
    try (split; [discriminate | congruence]); [tauto|].
  destruct (Z.compare_spec x y) as [->| |].
  - rewrite IH. split; congruence.
  - split; [discriminate | intros [= -> _]; lia].
  - split; [discriminate | intros [= -> _]; lia].
Qed.

Lemma cmp_tuple_lt_trans xs ys zs :
  cmp_tuple xs ys = Lt → cmp_tuple ys zs ≠ Gt → cmp_tuple xs zs = Lt.
Proof.
  revert ys zs. induction xs as [|x xs IH]; intros [|y ys] [|z zs]; simpl;
    try congruence.
  destruct (Z.compare_spec x y), (Z.compare_spec y z), (Z.compare_spec x z);
    try congruence; try lia; eauto.
Qed.

Lemma cmp_tuple_le_trans xs ys zs :
  cmp_tuple xs ys ≠ Gt → cmp_tuple ys zs ≠ Gt → cmp_tuple xs zs ≠ Gt.
Proof.
  revert ys zs. induction xs as [|x xs IH]; intros [|y ys] [|z zs]; simpl;
    try congruence.
  destruct (Z.compare_spec x y), (Z.compare_spec y z), (Z.compare_spec x z);
    try congruence; try lia; eauto.
Qed.

(** Tuples of equal length with further items appended compare by the
    first parts, then by the appended ones. *)
Lemma cmp_tuple_app xs xs' ys ys' :
  List.length xs = List.length xs' →
  cmp_tuple (xs ++ ys) (xs' ++ ys') =
    match cmp_tuple xs xs' with Eq => cmp_tuple ys ys' | r => r end.
Proof.
  revert xs'. induction xs as [|x xs IH]; intros [|x' xs'] Hl;
    try discriminate; simpl; [reflexivity|].
  destruct (x ?= x'); auto.
Qed.

(** Cutting two instants to the date, or to whole seconds, keeps their
    order. *)
Lemma now_as_monotone check t t' :
  not_after t t' →
  ∃ r, temporal_cmp (now_as check t) (now_as check t') = Some r ∧ r ≠ Gt.
Proof.
  unfold not_after, datetime_cmp, datetime_tuple. intros H.
  destruct check as [d|u]; simpl; eexists; (split; [reflexivity|]).
  - unfold date_cmp, date_of. rewrite cmp_tuple_app in H by reflexivity.
    destruct (cmp_tuple (date_tuple (dt_date t)) (date_tuple (dt_date t')));
      congruence.
  - unfold datetime_cmp, datetime_tuple. simpl in *.
    destruct (year (dt_date t) ?= year (dt_date t')); try congruence.
    destruct (month (dt_date t) ?= month (dt_date t')); try congruence.
    destruct (day (dt_date t) ?= day (dt_date t')); try congruence.
    destruct (hour t ?= hour t'); try congruence.
    destruct (minute t ?= minute t'); try congruence.
    destruct (second t ?= second t'); congruence.
Qed.

Lemma temporal_cmp_lt_trans a b b' r :
  temporal_cmp a b = Some Lt → temporal_cmp b b' = Some r → r ≠ Gt →
  temporal_cmp a b' = Some Lt.
Proof.
  destruct a, b, b'; simpl; try discriminate;
    intros [= H1] [= <-] H2; f_equal; eapply cmp_tuple_lt_trans; eauto.
Qed.

Lemma temporal_cmp_le_trans a b b' r r' :
  temporal_cmp a b = Some r → r ≠ Gt → temporal_cmp b b' = Some r' → r' ≠ Gt →
  ∃ r'', temporal_cmp a b' = Some r'' ∧ r'' ≠ Gt.
Proof.
  destruct a, b, b'; simpl; try discriminate;
    intros [= <-] H1 [= <-] H2; eexists; (split; [reflexivity|]);
    eapply cmp_tuple_le_trans; eauto.
Qed.

Lemma temporal_cmp_opp a b r :
  temporal_cmp a b = Some r → temporal_cmp b a = Some (CompOpp r).
Proof.
  destruct a, b; simpl; try discriminate; intros [= <-]; f_equal;
    apply cmp_tuple_opp.
Qed.

(** X8.  Time only moves a date towards the past.  When the clock
    reading of a later call is not before that of an earlier one, on
    the same valid string: [is_past] and [is_today_or_past], once true,
    stay true; [is_future] and [is_today_or_future], once false, stay
    false. *)
Theorem past_stays_past (s : string) (c c' : clock) (n m : nat) :
  valid_datestring s = true →
  not_after (c (S n)) (c' (S m)) →
  (run (is_past s) c n = Ok true → run (is_past s) c' m = Ok true)
  ∧ (run (is_today_or_past s) c n = Ok true →
       run (is_today_or_past s) c' m = Ok true)
  ∧ (run (is_future s) c n = Ok false → run (is_future s) c' m = Ok false)
  ∧ (run (is_today_or_future s) c n = Ok false →
       run (is_today_or_future s) c' m = Ok false).
Proof.
  intros Hv Hc. destruct (valid_resolves s Hv) as [check H].
  change (is_past s) with (named op_lt s).
  change (is_future s) with (named op_gt s).
  change (is_today_or_past s) with (named op_le s).
  change (is_today_or_future s) with (named op_ge s).
  unfold run. rewrite !(named_resolved _ s check _ _ H). simpl.
  destruct (now_as_monotone check _ _ Hc) as (r & Hr & Hne).
  destruct (temporal_cmp_now_as check (c (S n))) as (r1 & H1 & _).
  destruct (temporal_cmp_now_as check (c' (S m))) as (r2 & H2 & _).
  unfold op_lt, op_le, op_gt, op_ge. rewrite H1, H2.
  assert (Hlt : r1 = Lt → r2 = Lt).
  { intros ->.
    pose proof (temporal_cmp_lt_trans _ _ _ _ H1 Hr Hne) as E. congruence. }
  assert (Hle : r1 ≠ Gt → r2 ≠ Gt).
  { intros Hr1.
    destruct (temporal_cmp_le_trans _ _ _ _ _ H1 Hr1 Hr Hne) as (r'' & E & Hr'').
    congruence. }
  destruct r1.
  - assert (r2 ≠ Gt) by (apply Hle; discriminate).
    destruct r2; simpl; repeat split; congruence.
  - rewrite (Hlt eq_refl). simpl. repeat split; congruence.
  - simpl. repeat split; intros; discriminate.
Qed.

Lemma past_stays_past_witness :
  valid_datestring "2030-06-15T23:59:59" = true
  ∧ not_after (clock_past_midnight 1%nat) (clock_past_midnight 3%nat)
  ∧ run (is_today_or_past "2030-06-15T23:59:59") clock_past_midnight 0 = Ok true
  ∧ run (is_today_or_past "2030-06-15T23:59:59") clock_past_midnight 2 = Ok true.
Proof.
  assert (Hv : valid_datestring "2030-06-15T23:59:59" = true) by reflexivity.
  assert (Hc : not_after (clock_past_midnight 1%nat) (clock_past_midnight 3%nat))
    by (vm_compute; discriminate).
  assert (H0 : run (is_today_or_past "2030-06-15T23:59:59") clock_past_midnight 0
               = Ok true) by reflexivity.
  split; [exact Hv|]. split; [exact Hc|]. split; [exact H0|].
  destruct (past_stays_past "2030-06-15T23:59:59" clock_past_midnight
              clock_past_midnight 0 2 Hv Hc) as (_ & H & _).
  exact (H H0).
Defined.

(** ** Timestamps are compared to the second *)

Lemma datetime_cmp_eq a b : datetime_cmp a b = Eq ↔ a = b.
Proof.
  unfold datetime_cmp. rewrite cmp_tuple_eq.
  destruct a as [[ya ma da] Ha Ma Sa ua], b as [[yb mb db] Hb Mb Sb ub].
  unfold datetime_tuple, date_tuple. simpl. split; congruence.
Qed.

(** X9.  On a valid timestamp string [is_today] is no test of the
    calendar day: it returns true exactly when the clock reading, cut
    to whole seconds, is the parsed timestamp.  Of [is_past],
    [is_today] and [is_future] exactly one returns true. *)
Theorem is_today_on_timestamp (s : string) (c : clock) (n : nat) :
  timestamp_valid s = true →
  ∃ (u : datetime) (past today_ future : bool),
    (strptime s "%Y-%m-%dT%H:%M:%S" = Ok u
     ∨ strptime s "%Y-%m-%d %H:%M:%S" = Ok u)
    ∧ run (is_past s) c n = Ok past
    ∧ run (is_today s) c n = Ok today_
    ∧ run (is_future s) c n = Ok future
    ∧ (today_ = true ↔ replace_microsecond0 (c (S n)) = u)
    ∧ ((past = true ∧ today_ = false ∧ future = false)
       ∨ (past = false ∧ today_ = true ∧ future = false)
       ∨ (past = false ∧ today_ = false ∧ future = true)).
Proof.
  intros Hv. destruct (timestamp_resolves s Hv) as (u & Hu & H).
  set (r := datetime_cmp u (replace_microsecond0 (c (S n)))).
  exists u, (is_Lt r), (is_Eq r), (is_Gt r).
  change (is_today s) with (named op_eq s).
  change (is_past s) with (named op_lt s).
  change (is_future s) with (named op_gt s).
  unfold run. rewrite !(named_resolved _ s _ c n H).
  split; [exact Hu|]. repeat (split; [reflexivity|]).
  split.
  - pose proof (datetime_cmp_eq u (replace_microsecond0 (c (S n)))) as E.
    fold r in E. destruct r; simpl; split; intros H'; try discriminate;
      try reflexivity; try (symmetry; now apply E);
      symmetry in H'; apply E in H'; discriminate.
  - destruct r; simpl; auto.
Qed.

Lemma is_today_on_timestamp_witness :
  timestamp_valid "2030-06-15 08:00:00" = true
  ∧ ∃ (u : datetime) (past today_ future : bool),
      (strptime "2030-06-15 08:00:00" "%Y-%m-%dT%H:%M:%S" = Ok u
       ∨ strptime "2030-06-15 08:00:00" "%Y-%m-%d %H:%M:%S" = Ok u)
      ∧ run (is_past "2030-06-15 08:00:00") clock_2030_06_15 0 = Ok past
      ∧ run (is_today "2030-06-15 08:00:00") clock_2030_06_15 0 = Ok today_
      ∧ run (is_future "2030-06-15 08:00:00") clock_2030_06_15 0 = Ok future
      ∧ (today_ = true ↔ replace_microsecond0 (clock_2030_06_15 1%nat) = u)
      ∧ ((past = true ∧ today_ = false ∧ future = false)
         ∨ (past = false ∧ today_ = true ∧ future = false)
         ∨ (past = false ∧ today_ = false ∧ future = true)).
Proof.
  assert (Hv : timestamp_valid "2030-06-15 08:00:00" = true) by reflexivity.
  split; [exact Hv|].
  exact (is_today_on_timestamp "2030-06-15 08:00:00" clock_2030_06_15 0 Hv).
Defined.

(** ** Valid strings are renderings *)

Lemma digit_val_char c :
  is_digit c = true → 0 ≤ digit_val c ≤ 9 ∧ digit_char (digit_val c) = c.
Proof.
  destruct c as [[] [] [] [] [] [] [] []]; intros H; try discriminate H;
    split; (vm_compute; split; discriminate) || reflexivity.
Qed.

Lemma pad2_digits a b rest :
  is_digit a = true → is_digit b = true →
  pad2 (10 * digit_val a + digit_val b) rest = String a (String b rest).
Proof.
  intros [Ha Ea]%digit_val_char [Hb Eb]%digit_val_char. unfold pad2.
  replace ((10 * digit_val a + digit_val b) / 10) with (digit_val a)
    by (apply Z.div_unique with (r := digit_val b); lia).
  replace ((10 * digit_val a + digit_val b) mod 10) with (digit_val b)
    by (apply Z.mod_unique with (q := digit_val a); lia).
  now rewrite Ea, Eb.
Qed.

(** Reading two digits takes two digit characters off the string. *)
Lemma read_digits_two w s acc v s' :
  read_digits (S (S w)) s acc = Some (v, s') →
  ∃ a b s1, s = String a (String b s1)
            ∧ is_digit a = true ∧ is_digit b = true
            ∧ read_digits w s1 (100 * acc + (10 * digit_val a + digit_val b))
              = Some (v, s').
Proof.
  cbn [read_digits]. destruct s as [|a [|b s1]]; try discriminate.
  - destruct (is_digit a); discriminate.
  - destruct (is_digit a) eqn:Ha; [|discriminate].
    destruct (is_digit b) eqn:Hb; [|discriminate].
    intros H. exists a, b, s1. repeat split; auto.
    rewrite <- H. f_equal. lia.
Qed.

Lemma read_digits_2_inv s v s' :
  read_digits 2 s 0 = Some (v, s') → s = pad2 v s' ∧ 0 ≤ v < 100.
Proof.
  intros (a & b & s1 & -> & Ha & Hb & H)%read_digits_two.
  cbn [read_digits] in H. injection H as <- ->.
  rewrite Z.mul_0_r, Z.add_0_l, pad2_digits by assumption.
  apply digit_val_char in Ha, Hb. split; [reflexivity | lia].
Qed.

Lemma read_digits_4_inv s v s' :
  read_digits 4 s 0 = Some (v, s') → s = pad4 v s' ∧ 0 ≤ v < 10000.
Proof.
  intros (a & b & s1 & -> & Ha & Hb & H)%read_digits_two.
  apply read_digits_two in H as (a' & b' & s2 & -> & Ha' & Hb' & H).
  cbn [read_digits] in H. injection H as <- ->.
  pose proof (digit_val_char a Ha) as [Ba _].
  pose proof (digit_val_char b Hb) as [Bb _].
  pose proof (digit_val_char a' Ha') as [Ba' _].
  pose proof (digit_val_char b' Hb') as [Bb' _].
  split; [|lia]. unfold pad4.
  set (hi := 10 * digit_val a + digit_val b).
  set (lo := 10 * digit_val a' + digit_val b').
  replace ((100 * (100 * 0 + hi) + lo) / 100) with hi
    by (apply Z.div_unique with (r := lo); subst hi lo; lia).
  replace ((100 * (100 * 0 + hi) + lo) mod 100) with lo
    by (apply Z.mod_unique with (q := hi); subst hi lo; lia).
  subst hi lo. now rewrite !pad2_digits.
Qed.

Lemma scan_field_inv d fmt s r r' f w lo hi :
  directive d = Some (f, w, lo, hi) →
  scan (String "%" (String d fmt)) s r = Some r' →
  ∃ v s', read_digits w s 0 = Some (v, s')
          ∧ scan fmt s' (set_field f v r) = Some r'.
Proof.
  intros Hd. cbn [scan]. rewrite Ascii.eqb_refl, Hd.
  destruct (read_digits w s 0) as [[v s']|]; [|discriminate].
  destruct (_ && _); [|discriminate]. eauto.
Qed.

Lemma scan_lit_inv c fmt s r r' :
  Ascii.eqb c "%" = false →
  scan (String c fmt) s r = Some r' →
  ∃ s', s = String c s' ∧ scan fmt s' r = Some r'.
Proof.
  intros Hc. cbn [scan]. rewrite Hc.
  destruct s as [|c' s']; [discriminate|].
  destruct (Ascii.eqb c c') eqn:E; [|discriminate].
  apply Ascii.eqb_eq in E as <-. eauto.
Qed.

Lemma scan_end_inv s r r' : scan "" s r = Some r' → s = "" ∧ r' = r.
Proof. cbn [scan]. destruct s; [|discriminate]. now intros [= <-]. Qed.

(** The date part of the three formats. *)
Lemma scan_date_inv fmt s r r' :
  scan (String "%" (String "Y" (String "-" (String "%" (String "m"
    (String "-" (String "%" (String "d" fmt)))))))) s r = Some r' →
  ∃ y m d s',
    s = pad4 y (String "-" (pad2 m (String "-" (pad2 d s'))))
    ∧ scan fmt s' (set_field FDay d (set_field FMonth m (set_field FYear y r)))
      = Some r'.
Proof.
  intros H.
  eapply scan_field_inv in H as (y & s1 & [-> _]%read_digits_4_inv & H);
    [|reflexivity].
  apply scan_lit_inv in H as (s2 & -> & H); [|reflexivity].
  eapply scan_field_inv in H as (m & s3 & [-> _]%read_digits_2_inv & H);
    [|reflexivity].
  apply scan_lit_inv in H as (s4 & -> & H); [|reflexivity].
  eapply scan_field_inv in H as (d & s5 & [-> _]%read_digits_2_inv & H);
    [|reflexivity].
  eauto 10.
Qed.

Lemma strptime_date_inv s t :
  strptime s "%Y-%m-%d" = Ok t → isoformat_date (date_of t) = s.
Proof.
  unfold strptime. destruct (scan _ s found0) as [r|] eqn:E; [|discriminate].
  destruct (datetime_ok _); [|discriminate]. intros [= <-].
  apply scan_date_inv in E as (y & m & d & s' & -> & E).
  apply scan_end_inv in E as [-> ->]. reflexivity.
Qed.

Lemma strptime_timestamp_inv sep s t :
  Ascii.eqb sep "%" = false →
  strptime s
    (String "%" (String "Y" (String "-" (String "%" (String "m" (String "-"
      (String "%" (String "d" (String sep "%H:%M:%S")))))))))
  = Ok t →
  isoformat sep t = s.
Proof.
  intros Hsep. unfold strptime.
  destruct (scan _ s found0) as [r|] eqn:E; [|discriminate].
  destruct (datetime_ok _); [|discriminate]. intros [= <-].
  apply scan_date_inv in E as (y & m & d & s' & -> & E).
  apply scan_lit_inv in E as (s1 & -> & E); [|exact Hsep].
  eapply scan_field_inv in E as (H & s2 & [-> _]%read_digits_2_inv & E);
    [|reflexivity].
  apply scan_lit_inv in E as (s3 & -> & E); [|reflexivity].
  eapply scan_field_inv in E as (M & s4 & [-> _]%read_digits_2_inv & E);
    [|reflexivity].
  apply scan_lit_inv in E as (s5 & -> & E); [|reflexivity].
  eapply scan_field_inv in E as (S & s6 & [-> _]%read_digits_2_inv & E);
    [|reflexivity].
  apply scan_end_inv in E as [-> ->]. reflexivity.
Qed.





Lemma date_ok_bounds d :
  date_ok d = true →
  1 ≤ year d ≤ 9999 ∧ 1 ≤ month d ≤ 12 ∧ 1 ≤ day d ≤ 31.
Proof.
  unfold date_ok. rewrite !andb_true_iff, !Z.leb_le.
  pose proof (days_in_month_le_31 (year d) (month d)). lia.
Qed.

Lemma strptime_isoformat_date d :
  date_ok d = true →
  strptime (isoformat_date d) "%Y-%m-%d" = Ok (mkdatetime d 0 0 0 0).
Proof.
  intros Hok. destruct (date_ok_bounds d Hok) as (Hy & Hm & Hd).
  unfold strptime, isoformat_date.
  erewrite scan_field;
    [|reflexivity|apply read_digits_pad4; lia|cbv beta; lia].
  rewrite scan_lit by reflexivity.
  erewrite scan_field;
    [|reflexivity|rewrite read_digits_pad2 by lia; reflexivity|cbv beta; lia].
  rewrite scan_lit by reflexivity.
  erewrite scan_field;
    [|reflexivity|rewrite read_digits_pad2 by lia; reflexivity|cbv beta; lia].
  cbn [scan].
  replace (datetime_of_found _) with (mkdatetime d 0 0 0 0).
  - replace (datetime_ok (mkdatetime d 0 0 0 0)) with true; [reflexivity|].
    unfold datetime_ok, date_ok in *. simpl. now rewrite Hok.
  - destruct d as [y m dd]. unfold datetime_of_found. simpl.
    repeat f_equal; lia.
Qed.

Lemma re_match_isoformat_date d :
  date_ok d = true → re_match pattern_date (isoformat_date d) = true.
Proof.
  intros Hok. destruct (date_ok_bounds d Hok) as (Hy & Hm & Hd).
  unfold isoformat_date, pattern_date.
  rewrite re_match_pad4 by lia. cbn [app]. rewrite re_match_lit.
  rewrite re_match_pad2 by lia. cbn [app]. rewrite re_match_lit.
  rewrite <- (app_nil_r (digits 2)).
  rewrite re_match_pad2 by lia. reflexivity.
Qed.

Lemma isoformat_date_resolves d :
  date_ok d = true → resolves_to (isoformat_date d) (VDate d).
Proof.
  intros Hok c n.
  rewrite get_dates_date by now apply re_match_isoformat_date.
  now rewrite strptime_isoformat_date.
Qed.

(** X11.  [str] of any calendar date is a valid date-only string and
    resolves to that date; at a fixed clock instant, [str] of the
    current date is therefore today: [is_today] is true, [is_past] and
    [is_future] are false. *)
Theorem str_of_date_resolves (d : date) (c : clock) (t : datetime) (n : nat) :
  date_ok d = true →
  fixed_clock c t →
  date_only_valid (isoformat_date d) = true
  ∧ run (get_dates (isoformat_date d) ≫= λ dates, subscript dates "check_date") c n
    = Ok (VDate d)
  ∧ (d = date_of t →
       run (is_today (isoformat_date d)) c n = Ok true
       ∧ run (is_past (isoformat_date d)) c n = Ok false
       ∧ run (is_future (isoformat_date d)) c n = Ok false).
Proof.
  intros Hok Hc. pose proof (isoformat_date_resolves d Hok) as H.
  split.
  { unfold date_only_valid.
    now rewrite re_match_isoformat_date, strptime_isoformat_date. }
  split.
  { unfold run. now rewrite (fetch_check _ _ c n H). }
  intros ->.
  change (is_today ?s) with (named op_eq s).
  change (is_past ?s) with (named op_lt s).
  change (is_future ?s) with (named op_gt s).
  unfold run. rewrite !(named_resolved _ _ _ c n H), Hc. simpl.
  unfold op_eq, op_lt, op_gt. simpl.
  assert (E : date_cmp (date_of t) (date_of t) = Eq)
    by (apply cmp_tuple_eq; reflexivity).
  now rewrite E.
Qed.

Lemma str_of_date_resolves_witness :
  date_ok (mkdate 2030 6 15) = true
  ∧ fixed_clock clock_2030_06_15 noon_2030_06_15
  ∧ run (get_dates "2030-06-15" ≫= λ dates, subscript dates "check_date")
        clock_2030_06_15 0
    = Ok (VDate (mkdate 2030 6 15)).
Proof.
  assert (Hok : date_ok (mkdate 2030 6 15) = true) by reflexivity.
  assert (Hc : fixed_clock clock_2030_06_15 noon_2030_06_15)
    by (intros k; reflexivity).
  split; [exact Hok|]. split; [exact Hc|].
  exact (proj1 (proj2 (str_of_date_resolves (mkdate 2030 6 15)
           clock_2030_06_15 noon_2030_06_15 0 Hok Hc))).
Defined.

(** ** A newline after the date *)

Lemma read_digits_app w s acc v s' x :
  read_digits w s acc = Some (v, s') →
  read_digits w (s ++ x) acc = Some (v, s' ++ x).
Proof.
  revert s acc. induction w as [|w IH]; intros s acc.
  - simpl. now intros [= -> ->].
  - destruct s as [|a s]; [discriminate|].
    change (String a s ++ x) with (String a (s ++ x)).
    cbn [read_digits].
    destruct (is_digit a); [apply IH | discriminate].
Qed.

(** Data left over after the format is consumed is never accepted. *)
Lemma scan_app k : ∀ fmt s r r' x,
  (String.length fmt < k)%nat →
  scan fmt s r = Some r' →
  scan fmt (s ++ x) r = match x with EmptyString => Some r' | _ => None end.
Proof.
  induction k as [|k IH]; intros fmt s r r' x Hk H; [lia|].
  destruct fmt as [|a fmt].
  - apply scan_end_inv in H as [-> ->]. reflexivity.
  - cbn [scan] in *. destruct (Ascii.eqb a "%").
    + destruct fmt as [|d fmt]; [discriminate|].
      destruct (directive d) as [[[[f w] lo] hi]|]; [|discriminate].
      destruct (read_digits w s 0) as [[v s']|] eqn:E; [|discriminate].
      rewrite (read_digits_app _ _ _ _ _ x E).
      destruct (_ && _); [|discriminate].
      apply IH; [simpl in Hk; lia | exact H].
    + destruct s as [|a' s]; [discriminate|].
      change (String a' s ++ x) with (String a' (s ++ x)). cbv iota.
      destruct (Ascii.eqb a a'); [|discriminate].
      apply IH; [simpl in Hk; lia | exact H].
Qed.

Lemma strptime_trailing s fmt t a x :
  strptime s fmt = Ok t → strptime (s ++ String a x) fmt = Raise ValueError.
Proof.
  unfold strptime. destruct (scan fmt s found0) as [r|] eqn:E; [|discriminate].
  intros _. now rewrite (scan_app (S (String.length fmt)) fmt s found0 r _
                           (Nat.lt_succ_diag_r _) E).
Qed.

Lemma re_match_newline p s :
  re_match p s = true → String.length s = List.length p →
  re_match p (s ++ String newline EmptyString) = true.
Proof.
  revert s. induction p as [|i p IH]; intros s H Hl.
  - destruct s; [reflexivity | discriminate].
  - destruct s as [|a s]; [discriminate|]. simpl in *.
    apply andb_true_iff in H as [-> H]. simpl. apply IH; [exact H | lia].
Qed.

(** X12.  A newline after a valid string is let through by the
    pattern, whose [$] also holds before a final newline, and rejected
    by [strptime]: every predicate raises [ValueError] on it, not the
    [KeyError] of an unmatched string. *)
Theorem trailing_newline_raises_ValueError
  (s : string) (o : option string) (c : clock) (n : nat)
  (p : string → py bool) :
  p ∈ named_predicates →
  valid_datestring s = true →
  matches_none (s ++ String newline EmptyString) = false
  ∧ run (p (s ++ String newline EmptyString)) c n = Raise ValueError
  ∧ run (is_due (s ++ String newline EmptyString) o) c n = Raise ValueError.
Proof.
  intros [op [-> _]]%named_predicates_named Hv.
  set (s' := s ++ String newline EmptyString).
  assert (H : matches_none s' = false
              ∧ ∀ c n, get_dates s' c n = (Raise ValueError, S n)).
  { unfold valid_datestring, date_only_valid, timestamp_valid in Hv.
    unfold matches_none, s'.
    destruct (re_match pattern_date s) eqn:E1;
      [|destruct (re_match pattern_T s) eqn:E2;
        [|destruct (re_match pattern_space s) eqn:E3]].
    - destruct (strptime s "%Y-%m-%d") as [t|] eqn:Hp.
      + pose proof (strptime_date_inv s t Hp) as Hs.
        assert (Hm : re_match pattern_date (s ++ String newline "") = true)
          by (apply re_match_newline; [exact E1 | now rewrite <- Hs]).
        rewrite Hm. split; [reflexivity|]. intros c' n'.
        apply get_dates_unparsable. left. split; [exact Hm|].
        eapply strptime_trailing, Hp.
      + rewrite (date_excludes_T s E1), (date_excludes_space s E1) in Hv.
        simpl in Hv. discriminate.
    - destruct (strptime s "%Y-%m-%dT%H:%M:%S") as [t|] eqn:Hp.
      + pose proof (strptime_timestamp_inv "T" s t eq_refl Hp) as Hs.
        assert (Hm : re_match pattern_T (s ++ String newline "") = true)
          by (apply re_match_newline; [exact E2 | now rewrite <- Hs]).
        rewrite Hm, andb_false_r. split; [reflexivity|]. intros c' n'.
        apply get_dates_unparsable. right; left. split; [exact Hm|].
        eapply strptime_trailing, Hp.
      + rewrite (T_excludes_space s E2) in Hv. simpl in Hv. discriminate.
    - destruct (strptime s "%Y-%m-%d %H:%M:%S") as [t|] eqn:Hp;
        [|simpl in Hv; discriminate].
      pose proof (strptime_timestamp_inv " " s t eq_refl Hp) as Hs.
      assert (Hm : re_match pattern_space (s ++ String newline "") = true)
        by (apply re_match_newline; [exact E3 | now rewrite <- Hs]).
      rewrite Hm, andb_false_r. split; [reflexivity|]. intros c' n'.
      apply get_dates_unparsable. right; right. split; [exact Hm|].
      eapply strptime_trailing, Hp.
    - simpl in Hv. discriminate. }
  destruct H as [Hm H]. split; [exact Hm|]. unfold run.
  now rewrite (named_failing op s' c n _ _ (H c n)),
    (is_due_failing s' o c n _ _ (H c n)).
Qed.

Lemma trailing_newline_raises_ValueError_witness :
  (is_past ∈ named_predicates)
  ∧ valid_datestring "2030-06-14" = true
  ∧ matches_none ("2030-06-14" ++ String newline EmptyString) = false
  ∧ run (is_past ("2030-06-14" ++ String newline EmptyString)) clock_2030_06_15 0
    = Raise ValueError.
Proof.
  assert (Hp : is_past ∈ named_predicates).
  { unfold named_predicates. rewrite !elem_of_cons. auto. }
  assert (Hv : valid_datestring "2030-06-14" = true) by reflexivity.
  split; [exact Hp|]. split; [exact Hv|].
  destruct (trailing_newline_raises_ValueError "2030-06-14" None
              clock_2030_06_15 0 is_past Hp Hv) as (H1 & H2 & _).
  split; [exact H1 | exact H2].
Defined.

(** ** The neighbouring days *)

Lemma days_in_month_ge_28 y m : 1 ≤ m ≤ 12 → 28 ≤ days_in_month y m.
Proof.
  intros H.
  assert (m = 1 ∨ m = 2 ∨ m = 3 ∨ m = 4 ∨ m = 5 ∨ m = 6 ∨ m = 7 ∨ m = 8
          ∨ m = 9 ∨ m = 10 ∨ m = 11 ∨ m = 12) as Hm by lia.
  unfold days_in_month.
  decompose [or] Hm; subst; simpl; try lia; destruct (is_leap y); simpl; lia.
Qed.

Lemma date_ok_iff d :
  date_ok d = true ↔
  1 ≤ year d ≤ 9999 ∧ 1 ≤ month d ≤ 12
  ∧ 1 ≤ day d ≤ days_in_month (year d) (month d).
Proof. unfold date_ok. rewrite !andb_true_iff, !Z.leb_le. tauto. Qed.

Lemma date_cmp_Lt_iff a b : date_cmp a b = Lt ↔ date_before a b.
Proof.
  rewrite <- date_cmp_Lt. destruct (date_cmp a b); simpl; split; congruence.
Qed.

Lemma prev_day_spec d y :
  date_ok d = true → prev_day d = Some y →
  date_ok y = true ∧ date_cmp y d = Lt.
Proof.
  rewrite !date_ok_iff, date_cmp_Lt_iff. unfold prev_day, date_before.
  intros (Hy & Hm & Hd).
  destruct (Z.ltb_spec 1 (day d)); [|destruct (Z.ltb_spec 1 (month d));
    [|destruct (Z.ltb_spec 1 (year d))]]; intros [= <-]; simpl.
  - lia.
  - pose proof (days_in_month_ge_28 (year d) (month d - 1)). lia.
  - change (days_in_month (year d - 1) 12) with 31. lia.
Qed.

Lemma next_day_spec d z :
  date_ok d = true → next_day d = Some z →
  date_ok z = true ∧ date_cmp z d = Gt.
Proof.
  intros Hok H.
  enough (date_ok z = true ∧ date_cmp d z = Lt) as [H1 H2].
  { split; [exact H1|]. unfold date_cmp in *.
    rewrite (cmp_tuple_opp (date_tuple d) (date_tuple z)), H2. reflexivity. }
  revert Hok H.
  rewrite !date_ok_iff, date_cmp_Lt_iff. unfold next_day, date_before.
  intros (Hy & Hm & Hd).
  destruct (Z.ltb_spec (day d) (days_in_month (year d) (month d)));
    [|destruct (Z.ltb_spec (month d) 12);
      [|destruct (Z.ltb_spec (year d) 9999)]]; intros [= <-]; simpl.
  - lia.
  - pose proof (days_in_month_ge_28 (year d) (month d + 1)). lia.
  - change (days_in_month (year d + 1) 1) with 31. lia.
Qed.

(** ** Rendered values under a fixed clock *)

Lemma datetime_ok_iff t :
  datetime_ok t = true ↔
  date_ok (dt_date t) = true ∧ 0 ≤ hour t ≤ 23 ∧ 0 ≤ minute t ≤ 59
  ∧ 0 ≤ second t ≤ 59 ∧ 0 ≤ microsecond t ≤ 999999.
Proof.
  unfold datetime_ok, date_ok. rewrite !andb_true_iff, !Z.leb_le. tauto.
Qed.

Lemma datetime_ok_whole d t :
  date_ok d = true → datetime_ok t = true →
  datetime_ok (mkdatetime d (hour t) (minute t) (second t) 0) = true.
Proof. rewrite !datetime_ok_iff. simpl. intuition lia. Qed.

Lemma isoformat_resolves u :
  datetime_ok u = true → microsecond u = 0 →
  resolves_to (isoformat " " u) (VDateTime u).
Proof.
  intros Hok Hus c n.
  rewrite get_dates_space by apply (re_match_isoformat " " u Hok).
  now rewrite (strptime_isoformat " " u Hok Hus eq_refl).
Qed.

(** What each predicate returns on a string that resolves to a value
    whose comparison with the fixed instant is [r]. *)
Lemma outcomes_fixed c t s check r :
  fixed_clock c t →
  resolves_to s check →
  temporal_cmp check (now_as check t) = Some r →
  (∀ n, is_past s c n = (Ok (is_Lt r), S (S n)))
  ∧ (∀ n, is_today_or_past s c n = (Ok (negb (is_Gt r)), S (S n)))
  ∧ (∀ n, is_future s c n = (Ok (is_Gt r), S (S n)))
  ∧ (∀ n, is_today_or_future s c n = (Ok (negb (is_Lt r)), S (S n)))
  ∧ (∀ n, is_today s c n = (Ok (is_Eq r), S (S n)))
  ∧ (∀ n, is_due s (Some "==") c n = (Ok (is_Eq r), S (S n)))
  ∧ (∀ n, is_due s (Some ">") c n = (Ok (is_Lt r), S (S n)))
  ∧ (∀ n, is_due s (Some ">=") c n = (Ok (negb (is_Gt r)), S (S n)))
  ∧ (∀ n, is_due s (Some "<=") c n = (Ok (negb (is_Lt r)), S (S n)))
  ∧ (∀ n, is_due s (Some "<") c n = (Ok (is_Gt r), S (S n)))
  ∧ (∀ n, is_due s (Some "!=") c n = (Ok (negb (is_Eq r)), S (S n))).
Proof.
  intros Hc H Hr.
  pose proof (temporal_cmp_opp _ _ _ Hr) as Hr'.
  destruct ops_lookup as (L1 & L2 & L3 & L4 & L5 & L6 & _).
  change (is_today s) with (named op_eq s).
  change (is_past s) with (named op_lt s).
  change (is_future s) with (named op_gt s).
  change (is_today_or_past s) with (named op_le s).
  change (is_today_or_future s) with (named op_ge s).
  repeat split; intros n;
    rewrite ?(named_resolved _ s check c n H),
      ?(is_due_resolved s _ check c n H), Hc; simpl;
    rewrite ?L1, ?L2, ?L3, ?L4, ?L5, ?L6;
    unfold op_lt, op_le, op_gt, op_ge, op_eq, op_ne; rewrite ?Hr, ?Hr';
    destruct r; reflexivity.
Qed.

(** ** The fixture of [setUp] at a fixed instant *)

Lemma setUp_fixed c t n :
  fixed_clock c t →
  setUp c n =
    match prev_day (dt_date t), next_day (dt_date t) with
    | Some y, Some z =>
        (Some {| date_today := isoformat_date (dt_date t);
                 date_today_wt := isoformat " " (replace_microsecond0 t);
                 date_yesterday := isoformat_date y;
                 date_yesterday_wt :=
                   isoformat " " (mkdatetime y (hour t) (minute t) (second t) 0);
                 date_tomorrow := isoformat_date z;
                 date_tomorrow_wt :=
                   isoformat " " (mkdatetime z (hour t) (minute t) (second t) 0) |},
         (7 + n)%nat)
    | Some _, None => (None, (6 + n)%nat)
    | None, _ => (None, (4 + n)%nat)
    end.
Proof.
  intros Hc. unfold setUp, minus_day, plus_day. rewrite !Hc.
  destruct (prev_day (dt_date t)) as [y|]; [|reflexivity].
  destruct (next_day (dt_date t)) as [z|]; reflexivity.
Qed.

Lemma fixture_stands c t n fx n' :
  fixed_clock c t → datetime_ok t = true →
  setUp c n = (Some fx, n') →
  stands (date_yesterday fx) t Lt ∧ stands (date_today fx) t Eq
  ∧ stands (date_tomorrow fx) t Gt
  ∧ stands (date_yesterday_wt fx) t Lt ∧ stands (date_today_wt fx) t Eq
  ∧ stands (date_tomorrow_wt fx) t Gt.
Proof.
  intros Hc Hok. rewrite (setUp_fixed c t n Hc).
  destruct (prev_day (dt_date t)) as [y|] eqn:Hy; [|discriminate].
  destruct (next_day (dt_date t)) as [z|] eqn:Hz; [|discriminate].
  intros [= <- _]. cbn [date_today date_today_wt date_yesterday
    date_yesterday_wt date_tomorrow date_tomorrow_wt].
  pose proof (proj1 (datetime_ok_iff t) Hok) as (Hd & _).
  destruct (prev_day_spec _ _ Hd Hy) as [Hoky Hlt].
  destruct (next_day_spec _ _ Hd Hz) as [Hokz Hgt].
  assert (Hw : ∀ d, datetime_cmp (mkdatetime d (hour t) (minute t) (second t) 0)
                      (replace_microsecond0 t)
                    = match date_cmp d (dt_date t) with
                      | Eq => Eq | r => r end).
  { intros d. unfold datetime_cmp, datetime_tuple. simpl dt_date.
    rewrite cmp_tuple_app by reflexivity. fold (date_cmp d (dt_date t)).
    destruct (date_cmp d (dt_date t)); try reflexivity.
    apply cmp_tuple_eq. reflexivity. }
  repeat split.
  - exists (VDate y). split; [now apply isoformat_date_resolves|].
    cbn [temporal_cmp now_as]. unfold date_of. now rewrite Hlt.
  - exists (VDate (dt_date t)). split; [now apply isoformat_date_resolves|].
    cbn [temporal_cmp now_as]. f_equal. unfold date_cmp.
    apply cmp_tuple_eq. reflexivity.
  - exists (VDate z). split; [now apply isoformat_date_resolves|].
    cbn [temporal_cmp now_as]. unfold date_of. now rewrite Hgt.
  - eexists (VDateTime _). split.
    + apply isoformat_resolves; [now apply datetime_ok_whole | reflexivity].
    + cbn [temporal_cmp now_as]. now rewrite Hw, Hlt.
  - eexists (VDateTime _). split.
    + apply isoformat_resolves; [|reflexivity].
      destruct t as [d h m s us]. now apply (datetime_ok_whole d _ Hd).
    + cbn [temporal_cmp now_as]. f_equal. unfold datetime_cmp.
      apply cmp_tuple_eq. reflexivity.
  - eexists (VDateTime _). split.
    + apply isoformat_resolves; [now apply datetime_ok_whole | reflexivity].
    + cbn [temporal_cmp now_as]. now rewrite Hw, Hgt.
Qed.

Lemma assertTrue_holds m rest c n n' :
  m c n = (Ok true, n') → assertTrue m rest c n = rest c n'.
Proof. intros H. unfold assertTrue. now rewrite (bind_ok _ _ _ _ _ _ H). Qed.

Lemma assertFalse_holds m rest c n n' :
  m c n = (Ok false, n') → assertFalse m rest c n = rest c n'.
Proof. intros H. unfold assertFalse. now rewrite (bind_ok _ _ _ _ _ _ H). Qed.

Lemma assertTrue_fails m rest c n n' :
  m c n = (Ok false, n') → assertTrue m rest c n = (Ok false, n').
Proof. intros H. unfold assertTrue. now rewrite (bind_ok _ _ _ _ _ _ H). Qed.

(** Runs a chain of assertions whose outcomes are among the
    hypotheses. *)
Ltac run_assertions :=
  unfold run;
  repeat first
    [ erewrite assertTrue_holds by
        (match goal with H : ∀ n, _ = _ |- _ => apply H end)
    | erewrite assertFalse_holds by
        (match goal with H : ∀ n, _ = _ |- _ => apply H end) ];
  reflexivity.

(** Gives the outcomes of all predicates on a string that [stands]. *)
Ltac outcomes_of H Hc :=
  let check := fresh "check" in
  let Hr := fresh "Hr" in
  let Hcmp := fresh "Hcmp" in
  destruct H as (check & Hr & Hcmp);
  destruct (outcomes_fixed _ _ _ _ _ Hc Hr Hcmp)
    as (? & ? & ? & ? & ? & ? & ? & ? & ? & ? & ?);
  simpl is_Lt in *; simpl is_Gt in *; simpl is_Eq in *; simpl negb in *;
  clear Hr Hcmp.

(** X13.  At a fixed clock instant the five tests of the named
    predicates on date-only strings pass, whenever [setUp] succeeds
    (the day before and the day after exist): yesterday is past, today
    is today, tomorrow is future. *)
Theorem date_tests_pass
  (c : clock) (t : datetime) (n n' m : nat) (self : fixture)
  (test : fixture → py bool) :
  test ∈ date_tests →
  fixed_clock c t →
  datetime_ok t = true →
  setUp c n = (Some self, n') →
  run (test self) c m = Ok true.
Proof.
  intros Ht Hc Hok Hs.
  destruct (fixture_stands c t n self n' Hc Hok Hs)
    as (Hy & Hd & Hz & _).
  outcomes_of Hy Hc. outcomes_of Hd Hc. outcomes_of Hz Hc.
  revert Ht. unfold date_tests. rewrite !elem_of_cons, elem_of_nil.
  intros [->|[->|[->|[->|[->|[]]]]]];
    unfold test_is_past, test_is_today_or_past, test_is_future,
      test_is_today_or_future, test_is_today;
    run_assertions.
Qed.

Lemma date_tests_pass_witness :
  (test_is_today_or_past ∈ date_tests)
  ∧ fixed_clock a_clock_for_tests (mkdatetime (mkdate 2024 3 1) 0 0 0 1)
  ∧ datetime_ok (mkdatetime (mkdate 2024 3 1) 0 0 0 1) = true
  ∧ setUp a_clock_for_tests 0
    = (Some (mkfixture "2024-03-01" "2024-03-01 00:00:00"
               "2024-02-29" "2024-02-29 00:00:00"
               "2024-03-02" "2024-03-02 00:00:00"), 7%nat)
  ∧ run (test_is_today_or_past
           (mkfixture "2024-03-01" "2024-03-01 00:00:00"
              "2024-02-29" "2024-02-29 00:00:00"
              "2024-03-02" "2024-03-02 00:00:00")) a_clock_for_tests 7
    = Ok true.
Proof.
  assert (Ht : test_is_today_or_past ∈ date_tests).
  { unfold date_tests. rewrite !elem_of_cons. auto. }
  assert (Hc : fixed_clock a_clock_for_tests (mkdatetime (mkdate 2024 3 1) 0 0 0 1))
    by (intros k; reflexivity).
  assert (Hok : datetime_ok (mkdatetime (mkdate 2024 3 1) 0 0 0 1) = true)
    by reflexivity.
  assert (Hs : setUp a_clock_for_tests 0
    = (Some (mkfixture "2024-03-01" "2024-03-01 00:00:00"
               "2024-02-29" "2024-02-29 00:00:00"
               "2024-03-02" "2024-03-02 00:00:00"), 7%nat)) by reflexivity.
  split; [exact Ht|]. split; [exact Hc|]. split; [exact Hok|].
  split; [exact Hs|].
  exact (date_tests_pass a_clock_for_tests _ 0 7 7 _ test_is_today_or_past
           Ht Hc Hok Hs).
Defined.

(** X14.  At a fixed clock instant the four tests on timestamp strings
    pass as well, whenever [setUp] succeeds: the timestamps of setUp
    and the instant of the test are cut to the same whole second. *)
Theorem timestamp_tests_pass
  (c : clock) (t : datetime) (n n' m : nat) (self : fixture)
  (test : fixture → py bool) :
  test ∈ timestamp_tests →
  fixed_clock c t →
  datetime_ok t = true →
  setUp c n = (Some self, n') →
  run (test self) c m = Ok true.
Proof.
  intros Ht Hc Hok Hs.
  destruct (fixture_stands c t n self n' Hc Hok Hs)
    as (_ & _ & _ & Hy & Hd & Hz).
  outcomes_of Hy Hc. outcomes_of Hd Hc. outcomes_of Hz Hc.
  revert Ht. unfold timestamp_tests. rewrite !elem_of_cons, elem_of_nil.
  intros [->|[->|[->|[->|[]]]]];
    unfold test_is_past_wtime, test_is_today_or_past_wt, test_is_future_wt,
      test_is_today_wt;
    run_assertions.
Qed.

Lemma timestamp_tests_pass_witness :
  (test_is_today_wt ∈ timestamp_tests)
  ∧ fixed_clock a_clock_for_tests (mkdatetime (mkdate 2024 3 1) 0 0 0 1)
  ∧ datetime_ok (mkdatetime (mkdate 2024 3 1) 0 0 0 1) = true
  ∧ setUp a_clock_for_tests 0
    = (Some (mkfixture "2024-03-01" "2024-03-01 00:00:00"
               "2024-02-29" "2024-02-29 00:00:00"
               "2024-03-02" "2024-03-02 00:00:00"), 7%nat)
  ∧ run (test_is_today_wt
           (mkfixture "2024-03-01" "2024-03-01 00:00:00"
              "2024-02-29" "2024-02-29 00:00:00"
              "2024-03-02" "2024-03-02 00:00:00")) a_clock_for_tests 7
    = Ok true.
Proof.
  assert (Ht : test_is_today_wt ∈ timestamp_tests).
  { unfold timestamp_tests. rewrite !elem_of_cons. auto 10. }
  assert (Hc : fixed_clock a_clock_for_tests (mkdatetime (mkdate 2024 3 1) 0 0 0 1))
    by (intros k; reflexivity).
  assert (Hok : datetime_ok (mkdatetime (mkdate 2024 3 1) 0 0 0 1) = true)
    by reflexivity.
  assert (Hs : setUp a_clock_for_tests 0
    = (Some (mkfixture "2024-03-01" "2024-03-01 00:00:00"
               "2024-02-29" "2024-02-29 00:00:00"
               "2024-03-02" "2024-03-02 00:00:00"), 7%nat)) by reflexivity.
  split; [exact Ht|]. split; [exact Hc|]. split; [exact Hok|].
  split; [exact Hs|].
  exact (timestamp_tests_pass a_clock_for_tests _ 0 7 7 _ test_is_today_wt
           Ht Hc Hok Hs).
Defined.

(** X15.  At a fixed clock instant the six tests of [is_due], one per
    operator, pass whenever [setUp] succeeds. *)
Theorem is_due_tests_pass
  (c : clock) (t : datetime) (n n' m : nat) (self : fixture)
  (test : fixture → py bool) :
  test ∈ is_due_tests →
  fixed_clock c t →
  datetime_ok t = true →
  setUp c n = (Some self, n') →
  run (test self) c m = Ok true.
Proof.
  intros Ht Hc Hok Hs.
  destruct (fixture_stands c t n self n' Hc Hok Hs)
    as (Hy & Hd & Hz & _).
  outcomes_of Hy Hc. outcomes_of Hd Hc. outcomes_of Hz Hc.
  revert Ht. unfold is_due_tests. rewrite !elem_of_cons, elem_of_nil.
  intros [->|[->|[->|[->|[->|[->|[]]]]]]];
    unfold test_is_due_eq, test_is_due_gt, test_is_due_ge, test_is_due_le,
      test_is_due_lt, test_is_due_ne;
    run_assertions.
Qed.

Lemma is_due_tests_pass_witness :
  (test_is_due_le ∈ is_due_tests)
  ∧ fixed_clock a_clock_for_tests (mkdatetime (mkdate 2024 3 1) 0 0 0 1)
  ∧ datetime_ok (mkdatetime (mkdate 2024 3 1) 0 0 0 1) = true
  ∧ setUp a_clock_for_tests 0
    = (Some (mkfixture "2024-03-01" "2024-03-01 00:00:00"
               "2024-02-29" "2024-02-29 00:00:00"
               "2024-03-02" "2024-03-02 00:00:00"), 7%nat)
  ∧ run (test_is_due_le
           (mkfixture "2024-03-01" "2024-03-01 00:00:00"
              "2024-02-29" "2024-02-29 00:00:00"
              "2024-03-02" "2024-03-02 00:00:00")) a_clock_for_tests 7
    = Ok true.
Proof.
  assert (Ht : test_is_due_le ∈ is_due_tests).
  { unfold is_due_tests. rewrite !elem_of_cons. auto 10. }
  assert (Hc : fixed_clock a_clock_for_tests (mkdatetime (mkdate 2024 3 1) 0 0 0 1))
    by (intros k; reflexivity).
  assert (Hok : datetime_ok (mkdatetime (mkdate 2024 3 1) 0 0 0 1) = true)
    by reflexivity.
  assert (Hs : setUp a_clock_for_tests 0
    = (Some (mkfixture "2024-03-01" "2024-03-01 00:00:00"
               "2024-02-29" "2024-02-29 00:00:00"
               "2024-03-02" "2024-03-02 00:00:00"), 7%nat)) by reflexivity.
  split; [exact Ht|]. split; [exact Hc|]. split; [exact Hok|].
  split; [exact Hs|].
  exact (is_due_tests_pass a_clock_for_tests _ 0 7 7 _ test_is_due_le
           Ht Hc Hok Hs).
Defined.

(** ** The tests of [get_dates] *)

Lemma op_eq_same a : op_eq a a = Ok true.
Proof.
  unfold op_eq. destruct a as [d|u]; simpl.
  - replace (date_cmp d d) with Eq; [reflexivity|].
    symmetry. apply cmp_tuple_eq. reflexivity.
  - replace (datetime_cmp u u) with Eq; [reflexivity|].
    symmetry. apply cmp_tuple_eq. reflexivity.
Qed.

Lemma assertEqual_same a rest c n : assertEqual a a rest c n = rest c n.
Proof. unfold assertEqual. now rewrite bind_lift, op_eq_same. Qed.

Lemma subscript_check {B} now check (k : temporal → py B) c n :
  (subscript (pair_of now check) "check_date" ≫= k) c n = k check c n.
Proof. unfold subscript. now rewrite pair_of_check. Qed.

Lemma subscript_now {B} now check (k : temporal → py B) c n :
  (subscript (pair_of now check) "now_date" ≫= k) c n = k now c n.
Proof. unfold subscript. now rewrite pair_of_now. Qed.

Lemma resolves_1970 : resolves_to "1970-01-01" (VDate (mkdate 1970 1 1)).
Proof. exact (isoformat_date_resolves (mkdate 1970 1 1) eq_refl). Qed.

Lemma resolves_1970_T :
  resolves_to "1970-01-01T01:01:01"
    (VDateTime (mkdatetime (mkdate 1970 1 1) 1 1 1 0)).
Proof.
  intros c n.
  rewrite get_dates_T
    by exact (re_match_isoformat "T" (mkdatetime (mkdate 1970 1 1) 1 1 1 0) eq_refl).
  pose proof (strptime_isoformat "T" (mkdatetime (mkdate 1970 1 1) 1 1 1 0)
                eq_refl eq_refl eq_refl) as E.
  change (strptime "1970-01-01T01:01:01" "%Y-%m-%dT%H:%M:%S"
          = Ok (mkdatetime (mkdate 1970 1 1) 1 1 1 0)) in E.
  now rewrite E.
Qed.

(** X16.  At a fixed clock instant the two tests of [get_dates] pass:
    the check value is the date or timestamp written in the string, and
    the now value is what [strptime] reads back from [str] of the
    current date, or of the current time cut to whole seconds. *)
Theorem get_dates_tests_pass
  (c : clock) (t : datetime) (n n' m : nat) (self : fixture) :
  fixed_clock c t →
  datetime_ok t = true →
  setUp c n = (Some self, n') →
  run (test_get_dates_without_time self) c m = Ok true
  ∧ run (test_get_dates_with_time self) c m = Ok true.
Proof.
  intros Hc Hok Hs.
  pose proof (proj1 (datetime_ok_iff t) Hok) as (Hd & _).
  assert (Htoday : date_today self = isoformat_date (dt_date t)).
  { rewrite (setUp_fixed c t n Hc) in Hs.
    destruct (prev_day (dt_date t)); [|discriminate].
    destruct (next_day (dt_date t)); [|discriminate].
    now injection Hs as <- _. }
  assert (Hwhole : datetime_ok (replace_microsecond0 t) = true).
  { destruct t as [d h mi s us]. now apply (datetime_ok_whole d _ Hd). }
  assert (Hnow : strptime (isoformat " " (replace_microsecond0 t))
                   "%Y-%m-%d %H:%M:%S" = Ok (replace_microsecond0 t))
    by exact (strptime_isoformat " " _ Hwhole eq_refl eq_refl).
  split; unfold run.
  - unfold test_get_dates_without_time.
    rewrite (bind_ok _ _ _ _ _ _ (resolves_1970 c m)).
    rewrite subscript_check, bind_lift.
    change (strptime "1970-01-01" "%Y-%m-%d")
      with (Ok (mkdatetime (mkdate 1970 1 1) 0 0 0 0)).
    cbv iota. change (date_of (mkdatetime (mkdate 1970 1 1) 0 0 0 0))
      with (mkdate 1970 1 1).
    rewrite assertEqual_same, subscript_now, bind_lift, Htoday.
    rewrite (strptime_isoformat_date _ Hd). cbv iota.
    cbn [now_as date_of dt_date]. rewrite Hc.
    now rewrite assertEqual_same.
  - unfold test_get_dates_with_time.
    rewrite bind_today, Hc.
    rewrite (bind_ok _ _ _ _ _ _ (resolves_1970_T c (S m))).
    rewrite subscript_check, bind_lift.
    change (strptime "1970-01-01 01:01:01" "%Y-%m-%d %H:%M:%S")
      with (Ok (mkdatetime (mkdate 1970 1 1) 1 1 1 0)).
    cbv iota.
    rewrite assertEqual_same, subscript_now, bind_lift.
    rewrite Hnow. cbv iota.
    cbn [now_as]. rewrite Hc, assertEqual_same.
    rewrite (bind_ok _ _ _ _ _ _ (resolves_1970_T c (S (S m)))).
    rewrite subscript_check, bind_lift. cbv iota.
    rewrite assertEqual_same, subscript_now, bind_lift. cbv iota.
    cbn [now_as]. rewrite Hc. now rewrite assertEqual_same.
Qed.

Lemma get_dates_tests_pass_witness :
  fixed_clock a_clock_for_tests (mkdatetime (mkdate 2024 3 1) 0 0 0 1)
  ∧ datetime_ok (mkdatetime (mkdate 2024 3 1) 0 0 0 1) = true
  ∧ setUp a_clock_for_tests 0
    = (Some (mkfixture "2024-03-01" "2024-03-01 00:00:00"
               "2024-02-29" "2024-02-29 00:00:00"
               "2024-03-02" "2024-03-02 00:00:00"), 7%nat)
  ∧ run (test_get_dates_with_time
           (mkfixture "2024-03-01" "2024-03-01 00:00:00"
              "2024-02-29" "2024-02-29 00:00:00"
              "2024-03-02" "2024-03-02 00:00:00")) a_clock_for_tests 7
    = Ok true.
Proof.
  assert (Hc : fixed_clock a_clock_for_tests (mkdatetime (mkdate 2024 3 1) 0 0 0 1))
    by (intros k; reflexivity).
  assert (Hok : datetime_ok (mkdatetime (mkdate 2024 3 1) 0 0 0 1) = true)
    by reflexivity.
  assert (Hs : setUp a_clock_for_tests 0
    = (Some (mkfixture "2024-03-01" "2024-03-01 00:00:00"
               "2024-02-29" "2024-02-29 00:00:00"
               "2024-03-02" "2024-03-02 00:00:00"), 7%nat)) by reflexivity.
  split; [exact Hc|]. split; [exact Hok|]. split; [exact Hs|].
  exact (proj2 (get_dates_tests_pass a_clock_for_tests _ 0 7 7 _ Hc Hok Hs)).
Defined.

(** ** The tests need a clock that stands still *)

Lemma setUp_today c n fx n' :
  setUp c n = (Some fx, n') →
  date_today fx = isoformat_date (date_of (c n))
  ∧ date_today_wt fx = isoformat " " (replace_microsecond0 (c (2 + n)%nat)).
Proof.
  unfold setUp.
  destruct (minus_day (c (3 + n)%nat)); [|discriminate].
  destruct (minus_day (c (4 + n)%nat)); [|discriminate].
  destruct (plus_day (c (5 + n)%nat)); [|discriminate].
  destruct (plus_day (c (6 + n)%nat)); [|discriminate].
  now intros [= <- _].
Qed.

Lemma date_cmp_eq a b : date_cmp a b = Eq ↔ a = b.
Proof.
  unfold date_cmp. rewrite cmp_tuple_eq.
  destruct a, b. unfold date_tuple. simpl. split; congruence.
Qed.

(** X17.  The tests pass only while the clock stands still between
    [setUp] and the call of the predicate: [test_is_today_wt] fails as
    soon as the reading of the predicate lies in another second than
    the reading [setUp] rendered, and [test_is_today] fails when it
    lies on another date. *)
Theorem tests_fail_when_clock_moves
  (c : clock) (n n' m : nat) (self : fixture) :
  setUp c n = (Some self, n') →
  datetime_ok (c n) = true →
  datetime_ok (c (2 + n)%nat) = true →
  (replace_microsecond0 (c (S m)) ≠ replace_microsecond0 (c (2 + n)%nat) →
     run (test_is_today_wt self) c m = Ok false)
  ∧ (dt_date (c (S m)) ≠ dt_date (c n) →
       run (test_is_today self) c m = Ok false).
Proof.
  intros Hs Hok0 Hok2. destruct (setUp_today c n self n' Hs) as [Hd Hwt].
  pose proof (proj1 (datetime_ok_iff _) Hok0) as (Hdate0 & _).
  pose proof (proj1 (datetime_ok_iff _) Hok2) as (Hdate2 & _).
  split; intros Hne; unfold run.
  - unfold test_is_today_wt. erewrite assertTrue_fails; [reflexivity|].
    rewrite Hwt. change (is_today ?s) with (named op_eq s).
    rewrite named_resolved with (check := VDateTime (replace_microsecond0 (c (2 + n)%nat))).
    + unfold op_eq. cbn [temporal_cmp now_as].
      destruct (datetime_cmp _ _) eqn:E; try reflexivity.
      apply datetime_cmp_eq in E. congruence.
    + apply isoformat_resolves; [|reflexivity].
      destruct (c (2 + n)%nat) as [d h mi s us].
      now apply (datetime_ok_whole d _ Hdate2).
  - unfold test_is_today. erewrite assertTrue_fails; [reflexivity|].
    rewrite Hd. change (is_today ?s) with (named op_eq s).
    rewrite named_resolved with (check := VDate (date_of (c n))).
    + unfold op_eq. cbn [temporal_cmp now_as]. unfold date_of.
      destruct (date_cmp _ _) eqn:E; try reflexivity.
      apply date_cmp_eq in E. congruence.
    + now apply isoformat_date_resolves.
Qed.

Lemma tests_fail_when_clock_moves_witness :
  setUp clock_past_midnight 0
  = (Some (mkfixture "2030-06-15" "2030-06-16 00:00:00"
             "2030-06-15" "2030-06-15 00:00:00"
             "2030-06-17" "2030-06-17 00:00:00"), 7%nat)
  ∧ datetime_ok (clock_past_midnight 0%nat) = true
  ∧ datetime_ok (clock_past_midnight 2%nat) = true
  ∧ dt_date (clock_past_midnight 8%nat) ≠ dt_date (clock_past_midnight 0%nat)
  ∧ run (test_is_today
           (mkfixture "2030-06-15" "2030-06-16 00:00:00"
              "2030-06-15" "2030-06-15 00:00:00"
              "2030-06-17" "2030-06-17 00:00:00")) clock_past_midnight 7
    = Ok false.
Proof.
  assert (Hs : setUp clock_past_midnight 0
    = (Some (mkfixture "2030-06-15" "2030-06-16 00:00:00"
               "2030-06-15" "2030-06-15 00:00:00"
               "2030-06-17" "2030-06-17 00:00:00"), 7%nat)) by reflexivity.
  assert (H0 : datetime_ok (clock_past_midnight 0%nat) = true) by reflexivity.
  assert (H2 : datetime_ok (clock_past_midnight 2%nat) = true) by reflexivity.
  assert (Hne : dt_date (clock_past_midnight 8%nat)
                ≠ dt_date (clock_past_midnight 0%nat)) by discriminate.
  split; [exact Hs|]. split; [exact H0|]. split; [exact H2|].
  split; [exact Hne|].
  exact (proj2 (tests_fail_when_clock_moves clock_past_midnight 0 7 7 _
           Hs H0 H2) Hne).
Defined.
